(** * myip: address resolution, routing and rendering of lib/myip/myip.go

    A shallow embedding of the request-handling code of package [myip]
    (lib/myip/myip.go) and of the parts of the Go libraries it calls:
    [net.SplitHostPort], [textproto.CanonicalMIMEHeaderKey], [http.Header],
    [url.Values], the [http.ResponseWriter] contract, the route matching of
    [mux.Router] and the execution of the [text/template] value [cliTmpl].

    Go strings are byte strings: they are modelled by [string] (a list of
    8-bit [ascii]).  A Go [error] value is modelled by the inductive [error]
    below and a nil error by [None]. *)

From Stdlib Require Import ZArith Ascii String List Bool Lia.
From Stdlib Require Import SpecFloat.
From stdpp Require Import base option gmap strings list.

Local Open Scope string_scope.
Local Open Scope list_scope.

(** ** Bytes and strings *)

Module gostrings.

Definition byte_nl : ascii := Ascii.ascii_of_nat 10.
Definition byte_quote : ascii := Ascii.ascii_of_nat 34.

(** The one-byte strings that cannot be written inside a literal. *)
Definition nl : string := String byte_nl EmptyString.
Definition quote : string := String byte_quote EmptyString.

(** [strings.HasPrefix(s, prefix)] of Go. *)
Definition HasPrefix (s prefix : string) : bool := String.prefix prefix s.

(** [bytealg.IndexByteString]: index of the first [c] in [s], [None] for
    Go's [-1]. *)
Fixpoint IndexByteString (s : string) (c : ascii) : option nat :=
  match s with
  | EmptyString => None
  | String a s' =>
      if Ascii.eqb a c then Some 0
      else match IndexByteString s' c with
           | Some i => Some (S i)
           | None => None
           end
  end.

(** [bytealg.LastIndexByteString]: index of the last [c] in [s]. *)
Fixpoint LastIndexByteString (s : string) (c : ascii) : option nat :=
  match s with
  | EmptyString => None
  | String a s' =>
      match LastIndexByteString s' c with
      | Some i => Some (S i)
      | None => if Ascii.eqb a c then Some 0 else None
      end
  end.

(** The slice expressions [s[i:j]], [s[i:]] and [s[:j]]. *)
Definition slice (s : string) (i j : nat) : string := String.substring i (j - i) s.
Definition sliceFrom (s : string) (i : nat) : string :=
  String.substring i (String.length s - i) s.
Definition sliceTo (s : string) (j : nat) : string := String.substring 0 j s.

(** [s[0]], for a string known to be non-empty. *)
Definition first (s : string) : option ascii := String.get 0 s.

End gostrings.

(** ** Errors *)

(** The error values this code can meet.  [errorString] is any error known
    only by its text (what [HandleMyIP] returns); [AddrError] is
    [net.AddrError]; [ExecError] is [template.ExecError], whose text
    [text/template] builds from the template's name, the position and text
    of the node being evaluated and the message. *)
Module errors.

Inductive error : Type :=
| errorString (s : string)
| AddrError (Err Addr : string)
| ExecError (Name location node msg : string).

(** The method [Error() string] of the [error] interface. *)
Definition Error (e : error) : string :=
match e with
| errorString s => s
| AddrError err addr =>
    if String.eqb addr "" then err else "address " +:+ addr +:+ ": " +:+ err
| ExecError name location node msg =>
    "template: " +:+ name +:+ ":" +:+ location +:+ ": executing "
      +:+ gostrings.quote +:+ name +:+ gostrings.quote
      +:+ " at <" +:+ node +:+ ">: " +:+ msg
end.

End errors.

Abbreviation error := errors.error.

(** ** net.SplitHostPort *)

Module net.

Definition missingPort : string := "missing port in address".
Definition tooManyColons : string := "too many colons in address".

Definition addrErr (addr why : string) : string * string * option error :=
  ("", "", Some (errors.AddrError why addr)).

Definition contains (s : string) (c : ascii) : bool :=
  match gostrings.IndexByteString s c with Some _ => true | None => false end.

(** [func SplitHostPort(hostport string) (host, port string, err error)] of
    the Go standard library, branch by branch.  [j] and [k] are the
    positions from which a further '[' and ']' are looked for. *)
Definition SplitHostPort (hostport : string) : string * string * option error :=
  match gostrings.LastIndexByteString hostport ":" with
  | None => addrErr hostport missingPort
  | Some i =>
      let checked (host : string) (j k : nat) :=
        if contains (gostrings.sliceFrom hostport j) "[" then
          addrErr hostport "unexpected '[' in address"
        else if contains (gostrings.sliceFrom hostport k) "]" then
          addrErr hostport "unexpected ']' in address"
        else (host, gostrings.sliceFrom hostport (i + 1), None) in
      if bool_decide (gostrings.first hostport = Some "["%char) then
        match gostrings.IndexByteString hostport "]" with
        | None => addrErr hostport "missing ']' in address"
        | Some e =>
            if Nat.eqb (e + 1) (String.length hostport) then
              addrErr hostport missingPort
            else if Nat.eqb (e + 1) i then
              checked (gostrings.slice hostport 1 e) 1 (e + 1)
            else if bool_decide (String.get (e + 1) hostport = Some ":"%char) then
              addrErr hostport tooManyColons
            else addrErr hostport missingPort
        end
      else
        let host := gostrings.sliceTo hostport i in
        if contains host ":" then addrErr hostport tooManyColons
        else checked host 0 0
  end.

End net.

(** ** net/textproto: header keys and header maps *)

Module textproto.

Definition between (lo hi : N) (c : ascii) : bool :=
  let n := Ascii.N_of_ascii c in (N.leb lo n && N.leb n hi)%bool.

Definition isLower (c : ascii) : bool := between 97 122 c.
Definition isUpper (c : ascii) : bool := between 65 90 c.
Definition isDigit (c : ascii) : bool := between 48 57 c.

(** [validHeaderFieldByte]: the token characters of RFC 7230. *)
Definition validHeaderFieldByte (c : ascii) : bool :=
  (isLower c || isUpper c || isDigit c
   || net.contains "!#$%&'*+-.^_`|~" c)%bool.

Definition toLower : N := 32.

Fixpoint allValid (s : string) : bool :=
  match s with
  | EmptyString => true
  | String c s' => (validHeaderFieldByte c && allValid s')%bool
  end.

(** The rewriting loop of [canonicalMIMEHeaderKey]: upper case for the
    first letter and for a letter after a dash, lower case elsewhere. *)
Fixpoint canonicalize (upper : bool) (s : string) : string :=
  match s with
  | EmptyString => EmptyString
  | String c s' =>
      let c' :=
        if (upper && isLower c)%bool then
          Ascii.ascii_of_N (Ascii.N_of_ascii c - toLower)
        else if (negb upper && isUpper c)%bool then
          Ascii.ascii_of_N (Ascii.N_of_ascii c + toLower)
        else c in
      String c' (canonicalize (Ascii.eqb c' "-") s')
  end.

(** [CanonicalMIMEHeaderKey]: a key holding a byte that is not a token
    character (a space included) is returned unchanged, any other key is
    canonicalized. *)
Definition CanonicalMIMEHeaderKey (s : string) : string :=
  if allValid s then canonicalize true s else s.

(** [type MIMEHeader map[string][]string]. *)
Abbreviation MIMEHeader := (gmap string (list string)).

(** [func (h MIMEHeader) Get(key string) string]: the first value stored
    under the canonical form of [key], the empty string when there is
    none. *)
Definition Get (h : MIMEHeader) (key : string) : string :=
  match h !! CanonicalMIMEHeaderKey key with
  | Some (v :: _) => v
  | _ => ""
  end.

(** [func (h MIMEHeader) Set(key, value string)]. *)
Definition Set_ (h : MIMEHeader) (key value : string) : MIMEHeader :=
  <[CanonicalMIMEHeaderKey key := [value]]> h.

End textproto.

(** ** net/url *)

Module url.

(** [type Values map[string][]string], the result of [URL.Query()]. *)
Abbreviation Values := (gmap string (list string)).

(** [func (v Values) Get(key string) string]: the key is taken as it is. *)
Definition Get (v : Values) (key : string) : string :=
  match v !! key with
  | Some (x :: _) => x
  | _ => ""
  end.

(** The fields of [url.URL] this code reads; [Query] holds what the method
    [Query()] returns for the URL's raw query. *)
Record URL : Type := mkURL {
  Path : string;
  Query : Values
}.

End url.

(** ** The configuration and the payloads of the enrichment sources

    lib/conf, lib/dns, lib/whois, lib/location and uap-go are not among the
    sources: each type is given by the fields myip.go reads ([Register],
    [GetRemoteAddr], [WriteJSON] and the text of [cliTmpl]). *)

Module conf.

Record Config : Type := mkConfig {
  Debug : bool;
  IPHeader : string;
  Host : string
}.

End conf.

Module dns.
Record Response : Type := mkResponse { Names : list string }.
End dns.

Module whois.
Record Response : Type := mkResponse { Body : string }.
End whois.

Module location.
(** [Lat] and [Long] are IEEE 754 binary64 values: [cliTmpl] compares
    them with the float constant [0.0]. *)
Record Response : Type := mkResponse {
  City : string;
  Region : string;
  Country : string;
  Lat : spec_float;
  Long : spec_float
}.
End location.

Module uaparser.
Record Client : Type := mkClient { Family : string }.
End uaparser.

(** ** encoding/json *)

Module json.

(** Values whose encoders are outside myip.go; a document keeps them as
    they are. *)
Inductive payload : Type :=
| DNS (r : dns.Response)
| Whois (r : whois.Response)
| Location (r : location.Response)
| UserAgent (c : uaparser.Client)
| Header (h : textproto.MIMEHeader)
| StringMap (m : gmap string string).

(** A JSON document, as far as myip.go determines it: the object of a
    struct lists its members in field order. *)
#[warnings="-register-all"]
Inductive Value : Type :=
| Null
| Str (s : string)
| Object (members : list (string * Value))
| Payload (p : payload).

Definition keys (v : Value) : list string :=
  match v with
  | Object members => map fst members
  | _ => []
  end.

End json.

(** ** net/http: requests and the ResponseWriter contract *)

Module http.

Abbreviation Header := textproto.MIMEHeader.

(** [tls.ConnectionState], of which only the presence is read. *)
Inductive ConnectionState : Type := connectionState.

(** The fields of [http.Request] this code reads.  [TLS] is [None] for
    Go's nil pointer. *)
Record Request : Type := mkRequest {
  Method : string;
  URL : url.URL;
  Proto : string;
  Header_ : Header;
  RemoteAddr : string;
  TLS : option ConnectionState
}.

(** What a handler sends as the body.  A string is sent byte by byte; a
    float printed by [fmt.Fprint] and a document written by
    [json.Encoder] are kept as the value that was printed. *)
Inductive item : Type :=
| Byte (c : ascii)
| Float (f : spec_float)
| JSON (v : json.Value).

Definition text (s : string) : list item := map Byte (list_ascii_of_string s).

(** The state of an [http.ResponseWriter]: the header map that [Header()]
    returns, the status code once the header has been written ([None]
    before), the header fields that were written with it (a copy of the map
    taken by [WriteHeader], empty before), and the body so far. *)
Record ResponseWriter : Type := mkResponseWriter {
  header : Header;
  status : option nat;
  sent : Header;
  body : list item
}.

Definition StatusOK : nat := 200.

(** A writer nothing has been sent through. *)
Definition unwritten (w : ResponseWriter) : Prop :=
  status w = None /\ body w = [].

(** [w.Header().Set(key, value)].  Changing the header map after a call
    to [WriteHeader] (or [Write]) has no effect on the response: [sent] is
    left as it is. *)
Definition SetHeader (key value : string) (w : ResponseWriter) : ResponseWriter :=
  {| header := textproto.Set_ (header w) key value;
     status := status w;
     sent := sent w;
     body := body w |}.

(** [w.WriteHeader(code)]: the first call sends the status code with the
    header map as it is then, a later call is superfluous and changes
    nothing. *)
Definition WriteHeader (code : nat) (w : ResponseWriter) : ResponseWriter :=
  match status w with
  | Some _ => w
  | None =>
      {| header := header w; status := Some code; sent := header w; body := body w |}
  end.

(** [w.Write(data)]: if [WriteHeader] has not yet been called, [Write]
    calls [WriteHeader(http.StatusOK)] before writing the data. *)
Definition Write (data : list item) (w : ResponseWriter) : ResponseWriter :=
  let w := WriteHeader StatusOK w in
  {| header := header w; status := status w; sent := sent w; body := body w ++ data |}.

(** [type HandlerFunc func(ResponseWriter, *Request)]: the writer after
    the call. *)
Definition HandlerFunc : Type := ResponseWriter -> Request -> ResponseWriter.

End http.

(** ** text/template: execution over a writer *)

Module template.

(** A step of [Template.Execute]: it writes to the ResponseWriter as it
    goes and stops at the first error, leaving what was written. *)
Definition exec (A : Type) : Type :=
  http.ResponseWriter -> http.ResponseWriter * (error + A).

Definition ret {A} (a : A) : exec A := fun w => (w, inr a).

Definition bind {A B} (m : exec A) (k : A -> exec B) : exec B :=
  fun w =>
    match m w with
    | (w', inr a) => k a w'
    | (w', inl e) => (w', inl e)
    end.

Definition fail {A} (e : error) : exec A := fun w => (w, inl e).

(** A text node, and an action printing a string: the bytes are written. *)
Definition writeText (s : string) : exec unit :=
  fun w => (http.Write (http.text s) w, inr tt).

(** An action printing a float, through [fmt.Fprint]. *)
Definition printFloat (f : spec_float) : exec unit :=
  fun w => (http.Write [http.Float f] w, inr tt).

(** [state.errorf] at a node: the panic that [Execute] returns. *)
Definition errorf {A} (name location node msg : string) : exec A :=
  fail (errors.ExecError name location node msg).

(** [evalField] of [field] on a pointer receiver of type [typ]: a nil
    pointer is the error [nil pointer evaluating typ.field]. *)
Definition evalField {A B} (name location node typ field : string)
    (receiver : option A) (get : A -> B) : exec B :=
  match receiver with
  | Some a => ret (get a)
  | None =>
      errorf name location node
        ("nil pointer evaluating " +:+ typ +:+ "." +:+ field)
  end.

(** [walkRange] over a slice, with no else branch. *)
Fixpoint range {A} (l : list A) (body : A -> exec unit) : exec unit :=
  match l with
  | [] => ret tt
  | x :: l' => bind (body x) (fun _ => range l' body)
  end.

(** The builtin [ne] on two floats: [!(v1.Float() == v2.Float())]. *)
Definition ne (x y : spec_float) : bool := negb (SFeqb x y).

(** A parsed template: its name and what [Execute(w, data)] does. *)
Record Template (data : Type) : Type := mkTemplate {
  Name : string;
  Execute : data -> http.ResponseWriter -> http.ResponseWriter * option error
}.
Arguments Name {data}.
Arguments Execute {data}.

(** [Execute] returns the error of the walk, or nil. *)
Definition run (m : exec unit) (w : http.ResponseWriter)
  : http.ResponseWriter * option error :=
  match m w with
  | (w', inl e) => (w', Some e)
  | (w', inr _) => (w', None)
  end.

End template.

Declare Scope exec_scope.
Delimit Scope exec_scope with exec.
Notation "x <- m ;; k" := (template.bind m (fun x => k))
  (at level 100, m at next level, right associativity) : exec_scope.
Notation "m ;; k" := (template.bind m (fun _ => k))
  (at level 100, right associativity) : exec_scope.

(** ** gorilla/mux: routes *)

Module mux.

(** A route: its matchers, folded into one predicate on the request, and
    its handler. *)
Record Route : Type := mkRoute {
  matches : http.Request -> bool;
  handler : http.HandlerFunc
}.

(** [r.MatcherFunc(f).HandlerFunc(h)]. *)
Definition MatcherFunc (f : http.Request -> bool) (h : http.HandlerFunc) : Route :=
  mkRoute f h.

(** [r.HandleFunc(path, h)]: a path without variables matches the
    request whose URL path is equal to it. *)
Definition HandleFunc (path : string) (h : http.HandlerFunc) : Route :=
  mkRoute (fun req => String.eqb (url.Path (http.URL req)) path) h.

(** [r.PathPrefix(tpl).Handler(h)]. *)
Definition PathPrefix (tpl : string) (h : http.HandlerFunc) : Route :=
  mkRoute (fun req => gostrings.HasPrefix (url.Path (http.URL req)) tpl) h.

(** [type Router]: the routes in the order they were registered. *)
Definition Router : Type := list Route.

(** [Router.Match]: the routes are tried in order and the first one that
    matches is taken. *)
Fixpoint Match (r : Router) (req : http.Request) : option Route :=
  match r with
  | [] => None
  | route :: r' => if matches route req then Some route else Match r' req
  end.

(** [http.NotFound], the handler of a request no route matches. *)
Definition NotFound : http.HandlerFunc := fun w _ =>
  http.Write (http.text ("404 page not found" +:+ gostrings.nl))
    (http.WriteHeader 404
       (http.SetHeader "X-Content-Type-Options" "nosniff"
          (http.SetHeader "Content-Type" "text/plain; charset=utf-8" w))).

(** [Router.ServeHTTP] on a request whose path is already clean: the
    handler of the matched route answers.  The middleware registered with
    [Use] is not modelled. *)
Definition ServeHTTP (r : Router) : http.HandlerFunc := fun w req =>
  match Match r req with
  | Some route => handler route w req
  | None => NotFound w req
  end.

End mux.

(** ** Package myip *)

Module myip.

Import gostrings.
Local Open Scope exec_scope.

(** [ErrResponse] is returned in the case of a error. *)
Record ErrResponse : Type := mkErrResponse { Error : string }.

(** [Response] is a normal response.  A pointer field is [None] when nil. *)
Record Response : Type := mkResponse {
  RequestID : string;
  RemoteAddr : string;
  RemoteAddrFamily : string;
  RemoteAddrReverse : option dns.Response;
  RemoteAddrWhois : option whois.Response;
  ActualRemoteAddr : string;
  Method : string;
  URL : string;
  Proto : string;
  Header : http.Header;
  Location : option location.Response;
  UserAgent : option uaparser.Client;
  Insights : gmap string string
}.

(** The values myip.go passes as [interface{}]: a [*Response], possibly
    nil, or a [*ErrResponse]. *)
Inductive any : Type :=
| PtrResponse (p : option Response)
| PtrErrResponse (p : ErrResponse).

(** *** JSON encoding, by the struct tags *)

(** A string field tagged [omitempty] is left out when empty. *)
Definition omitemptyString (name s : string) : list (string * json.Value) :=
  if String.eqb s "" then [] else [(name, json.Str s)].

(** A pointer field tagged [omitempty] is left out when nil. *)
Definition omitemptyPtr {A} (name : string) (p : option A) (enc : A -> json.payload)
  : list (string * json.Value) :=
  match p with
  | None => []
  | Some a => [(name, json.Payload (enc a))]
  end.

(** A map field tagged [omitempty] is left out when it has no entry. *)
Definition omitemptyMap (name : string) (m : gmap string string)
  : list (string * json.Value) :=
  if decide (m = ∅) then [] else [(name, json.Payload (json.StringMap m))].

Definition MarshalResponse (r : Response) : json.Value :=
  json.Object
    (omitemptyString "RequestID" (RequestID r)
     ++ [("RemoteAddr", json.Str (RemoteAddr r));
         ("RemoteAddrFamily", json.Str (RemoteAddrFamily r))]
     ++ omitemptyPtr "RemoteAddrReverse" (RemoteAddrReverse r) json.DNS
     ++ omitemptyPtr "RemoteAddrWhois" (RemoteAddrWhois r) json.Whois
     ++ omitemptyString "ActualRemoteAddr" (ActualRemoteAddr r)
     ++ [("Method", json.Str (Method r));
         ("URL", json.Str (URL r));
         ("Proto", json.Str (Proto r));
         ("Header", json.Payload (json.Header (Header r)))]
     ++ omitemptyPtr "Location" (Location r) json.Location
     ++ omitemptyPtr "UserAgent" (UserAgent r) json.UserAgent
     ++ omitemptyMap "Insights" (Insights r)).

Definition MarshalErrResponse (e : ErrResponse) : json.Value :=
  json.Object [("Error", json.Str (Error e))].

(** [json.Marshal(obj)]; a nil pointer encodes as [null]. *)
Definition Marshal (obj : any) : json.Value :=
  match obj with
  | PtrResponse None => json.Null
  | PtrResponse (Some r) => MarshalResponse r
  | PtrErrResponse e => MarshalErrResponse e
  end.

(** [json.NewEncoder(w).Encode(obj)]: one write of the document and a
    newline. *)
Definition Encode (obj : any) (w : http.ResponseWriter) : http.ResponseWriter :=
  http.Write (http.JSON (Marshal obj) :: http.text nl) w.

(** *** Content negotiation *)

(** [isCli] returns true if the request is coming from a cli tool, such
    as curl, or wget. *)
Definition isCli (req : http.Request) : bool :=
  let ua := textproto.Get (http.Header_ req) "User-Agent" in
  (HasPrefix ua "curl/" || HasPrefix ua "Wget/")%bool.

(** *** The text template [cliTmpl] *)

Definition cliTmplName : string := "test".

(** A field of dot.  [location] is the line and column of the node in the
    template text, as [text/template] reports it. *)
Definition dot {B} (location node field : string) (get : Response -> B)
    (data : any) : template.exec B :=
  match data with
  | PtrResponse p =>
      template.evalField cliTmplName location node "*myip.Response" field p get
  | PtrErrResponse _ =>
      template.errorf cliTmplName location node
        ("can't evaluate field " +:+ field +:+ " in type *myip.ErrResponse")
  end.

Definition zero : spec_float := S754_zero false.

(** The action [{{if (and (ne .Location.Lat 0.0) (ne .Location.Long 0.0))}}
    ({{.Location.Lat}}, {{.Location.Long}}) {{end}}]. *)
Definition coordinates (loc : location.Response) : template.exec unit :=
  if (template.ne (location.Lat loc) zero && template.ne (location.Long loc) zero)%bool
  then
    template.writeText " (" ;;
    template.printFloat (location.Lat loc) ;;
    template.writeText ", " ;;
    template.printFloat (location.Long loc) ;;
    template.writeText ") "
  else template.ret tt.

(** The walk of [cliTmpl], node by node.  Once [.RemoteAddr] has been
    read dot is not nil, and once [.Location.City] has been read
    [.Location] is not nil: the later fields behind these pointers are
    read directly. *)
Definition cliTmplWalk (data : any) : template.exec unit :=
  template.writeText "IP: " ;;
  r <- dot "1:6" ".RemoteAddr" "RemoteAddr" id data ;;
  template.writeText (RemoteAddr r) ;;
  template.writeText nl ;;
  names <- template.evalField cliTmplName "2:26" ".RemoteAddrReverse.Names"
             "*dns.Response" "Names" (RemoteAddrReverse r) dns.Names ;;
  template.range names (fun name =>
    template.writeText "DNS: " ;;
    template.writeText name ;;
    template.writeText nl) ;;
  template.writeText (nl +:+ "WHOIS:" +:+ nl) ;;
  whoisBody <- template.evalField cliTmplName "5:18" ".RemoteAddrWhois.Body"
                 "*whois.Response" "Body" (RemoteAddrWhois r) whois.Body ;;
  template.writeText whoisBody ;;
  template.writeText (nl +:+ nl +:+ "Location: ") ;;
  loc <- template.evalField cliTmplName "7:21" ".Location.City"
           "*location.Response" "City" (Location r) id ;;
  template.writeText (location.City loc) ;;
  template.writeText " " ;;
  template.writeText (location.Region loc) ;;
  template.writeText " " ;;
  template.writeText (location.Country loc) ;;
  coordinates loc ;;
  template.writeText (nl +:+ nl +:+ "ID: ") ;;
  template.writeText (RequestID r) ;;
  template.writeText nl.

Definition cliTmpl : template.Template any :=
  template.mkTemplate any cliTmplName (fun data => template.run (cliTmplWalk data)).

(** *** The server *)

(** [Server] is the interface all instances of the myip application
    should implement. *)
Record Server : Type := mkServer {
  getRemoteAddr : http.Request -> string * option error;
  handleMyIP : http.Request -> option Response * option error;
  handleConfigJs : http.HandlerFunc;
  writeJSON : http.ResponseWriter -> http.Request -> any -> option error
              -> http.ResponseWriter;
  writeText : http.ResponseWriter -> http.Request -> template.Template any
              -> any -> option error -> http.ResponseWriter
}.

(** [DefaultServer] is a default implementation of [Server]. *)
Record DefaultServer : Type := mkDefaultServer { Config : conf.Config }.

(** [GetRemoteAddr] returns the remote address, either the real one, or
    one passed via a header, or finally if in debug one passed as a query
    param. *)
Definition GetRemoteAddr (s : DefaultServer) (req : http.Request)
  : string * option error :=
  let remoteAddr := http.RemoteAddr req in
  let host := url.Get (url.Query (http.URL req)) "host" in
  if (negb (String.eqb host "") && conf.Debug (Config s))%bool then (host, None)
  else
    let remoteAddr :=
      if negb (String.eqb (conf.IPHeader (Config s)) "") then
        let addr := textproto.Get (http.Header_ req) (conf.IPHeader (Config s)) in
        if negb (String.eqb addr "") then addr else remoteAddr
      else remoteAddr in
    let '(host, _, err) := net.SplitHostPort remoteAddr in
    match err with
    | Some _ => (remoteAddr, None)
    | None => (host, err)
    end.

(** [WriteJSON] takes the given obj and error, and returns appropriate
    JSON to the user. *)
Definition WriteJSON (s : DefaultServer) (w : http.ResponseWriter)
    (req : http.Request) (obj : any) (err : option error) : http.ResponseWriter :=
  let '(w, obj) :=
    match err with
    | Some e => (http.WriteHeader 500 w, PtrErrResponse (mkErrResponse (errors.Error e)))
    | None => (w, obj)
    end in
  let scheme :=
    match http.TLS req with
    | Some _ => "https://"
    | None => "http://"
    end in
  let w := http.SetHeader "Content-Type" "application/json" w in
  let w := http.SetHeader "Access-Control-Allow-Origin"
             (scheme +:+ conf.Host (Config s)) w in
  let w := http.SetHeader "Vary" "Origin" w in
  Encode obj w.

(** [WriteText] takes the given tmpl and data, and returns appropriate
    text/plain to the user. *)
Definition WriteText (s : DefaultServer) (w : http.ResponseWriter)
    (req : http.Request) (tmpl : template.Template any) (data : any)
    (err : option error) : http.ResponseWriter :=
  let w := http.SetHeader "Content-Type" "text/plain" w in
  let '(w, err) :=
    match err with
    | None => template.Execute tmpl data w
    | Some _ => (w, err)
    end in
  match err with
  | Some e => http.Write (http.text (errors.Error e)) (http.WriteHeader 500 w)
  | None => w
  end.

(** *** Registration of the routes

    [HandleMyIP], [HandleConfigJs] and [addInsights] are defined in other
    files of the package, and the static file server by [net/http]: they
    are parameters here. *)
Section Register.

Variable HandleMyIP : DefaultServer -> http.Request -> option Response * option error.
Variable HandleConfigJs : DefaultServer -> http.HandlerFunc.
Variable addInsights : http.Request -> option Response -> option Response.
Variable fs : http.HandlerFunc.

(** [DefaultServer] as a [Server]. *)
Definition server (s : DefaultServer) : Server :=
  {| getRemoteAddr := GetRemoteAddr s;
     handleMyIP := HandleMyIP s;
     handleConfigJs := HandleConfigJs s;
     writeJSON := WriteJSON s;
     writeText := WriteText s |}.

Definition cliHandler (app : Server) : http.HandlerFunc := fun w req =>
  let '(response, err) := handleMyIP app req in
  writeText app w req cliTmpl (PtrResponse response) err.

Definition jsonHandler (app : Server) : http.HandlerFunc := fun w req =>
  let '(response, err) := handleMyIP app req in
  let response :=
    match err with
    | Some _ => addInsights req response
    | None => response
    end in
  writeJSON app w req (PtrResponse response) err.

(** [Register] this [myip.Server]: the router it installs. *)
Definition Register (app : Server) (config : conf.Config) : mux.Router :=
  [ mux.MatcherFunc isCli (cliHandler app);
    mux.HandleFunc "/json" (jsonHandler app);
    mux.HandleFunc "/config.js" (handleConfigJs app);
    mux.PathPrefix "/" fs ].

End Register.

End myip.

(** ** Requests, responses and servers used as concrete inputs *)

Module sample.

Definition config (debug : bool) (ipHeader : string) : conf.Config :=
  conf.mkConfig debug ipHeader "myip.example".

Definition server (debug : bool) (ipHeader : string) : myip.DefaultServer :=
  myip.mkDefaultServer (config debug ipHeader).

Definition request (path userAgent : string) (query : url.Values)
    (extra : http.Header) (remoteAddr : string) : http.Request :=
  http.mkRequest "GET" (url.mkURL path query) "HTTP/1.1"
    (<["User-Agent" := [userAgent]]> extra) remoteAddr None.

Definition browser : string := "Mozilla/5.0 (X11; Linux x86_64)".
Definition curl : string := "curl/7.68.0".


(** The same request without the query. *)
Definition plainRequest : http.Request :=
  request "/json" browser ∅ ∅ "192.0.2.5:54321".

(** A request relayed by a proxy that sets X-Real-IP. *)
Definition proxiedRequest : http.Request :=
  request "/json" browser ∅ {[ "X-Real-Ip" := ["198.51.100.9"] ]} "10.0.0.1:40000".

(** The proxied request with [?host=203.0.113.7] added. *)
Definition proxiedOverrideRequest : http.Request :=
  request "/json" browser {[ "host" := ["203.0.113.7"] ]}
    {[ "X-Real-Ip" := ["198.51.100.9"] ]} "10.0.0.1:40000".

(** A peer address without a port. *)
Definition barePeerRequest : http.Request :=
  request "/json" browser ∅ ∅ "192.0.2.5".

(** curl asking for / and for /json. *)
Definition curlRequest : http.Request := request "/" curl ∅ ∅ "192.0.2.5:54321".

(** 51.5 and 1.5 as binary64 values. *)
Definition f51_5 : spec_float := S754_finite false 7247980650299392 (-47).
Definition f1_5 : spec_float := S754_finite false 6755399441055744 (-52).

Definition london : location.Response :=
  location.mkResponse "London" "England" "GB" f51_5 f1_5.

(** A point on the equator: latitude 0.0, longitude 1.5. *)
Definition equator : location.Response :=
  location.mkResponse "Equator" "Gulf of Guinea" "--" myip.zero f1_5.

Definition nowhere : location.Response :=
  location.mkResponse "" "" "" myip.zero myip.zero.

(** A response with every enrichment present, located at [loc]. *)
Definition fullResponse (loc : location.Response) : myip.Response :=
  myip.mkResponse "req-1" "192.0.2.5" "IPv4"
    (Some (dns.mkResponse ["host.example."]))
    (Some (whois.mkResponse "NetName: TEST-NET-1"))
    "" "GET" "/" "HTTP/1.1" ∅
    (Some loc) (Some (uaparser.mkClient "curl")) ∅.

(** The response of a request whose reverse DNS lookup failed. *)
Definition noDNSResponse : myip.Response :=
  myip.mkResponse "req-2" "192.0.2.5" "IPv4"
    None
    (Some (whois.mkResponse "NetName: TEST-NET-1"))
    "" "GET" "/" "HTTP/1.1" ∅
    (Some london) (Some (uaparser.mkClient "curl")) ∅.

(** Stand-ins for the methods and functions defined outside myip.go. *)
Definition HandleMyIP (result : option myip.Response * option error)
  : myip.DefaultServer -> http.Request -> option myip.Response * option error :=
  fun _ _ => result.
Definition HandleConfigJs : myip.DefaultServer -> http.HandlerFunc := fun _ w _ => w.
Definition addInsights : http.Request -> option myip.Response -> option myip.Response :=
  fun _ response => response.
Definition fs : http.HandlerFunc := mux.NotFound.

Definition app (result : option myip.Response * option error) : myip.Server :=
  myip.server (HandleMyIP result) HandleConfigJs (server false "").


(** A writer at the start of a request. *)
Definition w0 : http.ResponseWriter := http.mkResponseWriter ∅ None ∅ [].

End sample.

(** ** Auxiliary definitions for the statements *)

(** [hostport] parses as a host:port pair: [net.SplitHostPort] returns no
    error. *)
Definition isHostPort (hostport : string) : bool :=
  match net.SplitHostPort hostport with
  | (_, _, None) => true
  | (_, _, Some _) => false
  end.

(** The debug override applies: debug is on and the query has a non-empty
    [host] parameter. *)
Definition overridden (s : myip.DefaultServer) (req : http.Request) : bool :=
  (negb (String.eqb (url.Get (url.Query (http.URL req)) "host") "")
   && conf.Debug (myip.Config s))%bool.

(** The trusted header applies: [IPHeader] is configured and the request
    has a non-empty value for it. *)
Definition forwarded (s : myip.DefaultServer) (req : http.Request) : bool :=
  (negb (String.eqb (conf.IPHeader (myip.Config s)) "")
   && negb (String.eqb
              (textproto.Get (http.Header_ req) (conf.IPHeader (myip.Config s))) ""))%bool.

(** A host or port free of ':', '[' and ']'. *)
Definition plain (s : string) : bool :=
  (negb (net.contains s ":") && negb (net.contains s "[")
   && negb (net.contains s "]"))%bool.

(** [m], run on a writer whose header has been written, appends [items] to
    the body, leaves the header map, the status and the header sent as
    they are and ends with [res]. *)
Definition emits {A} (m : template.exec A) (items : list http.item)
    (res : error + A) : Prop :=
  forall w c, http.status w = Some c ->
    m w = ({| http.header := http.header w;
              http.status := Some c;
              http.sent := http.sent w;
              http.body := http.body w ++ items |}, res).

(** What the range action of [cliTmpl] prints for [names]. *)
Fixpoint dnsLines (names : list string) : list http.item :=
  match names with
  | [] => []
  | name :: names' =>
      http.text "DNS: " ++ http.text name ++ http.text gostrings.nl ++ dnsLines names'
  end.

(** The output of [cliTmpl] up to the country, and from the blank line
    after the location line on. *)
Definition beforeCoordinates (r : myip.Response) (names : list string)
    (whoisBody : string) (loc : location.Response) : list http.item :=
  http.text "IP: " ++ http.text (myip.RemoteAddr r) ++ http.text gostrings.nl
  ++ dnsLines names
  ++ http.text (gostrings.nl +:+ "WHOIS:" +:+ gostrings.nl)
  ++ http.text whoisBody
  ++ http.text (gostrings.nl +:+ gostrings.nl +:+ "Location: ")
  ++ http.text (location.City loc) ++ http.text " "
  ++ http.text (location.Region loc) ++ http.text " "
  ++ http.text (location.Country loc).

Definition afterCoordinates (r : myip.Response) : list http.item :=
  http.text (gostrings.nl +:+ gostrings.nl +:+ "ID: ")
  ++ http.text (myip.RequestID r) ++ http.text gostrings.nl.

(** The coordinates in their fixed format. *)
Definition coordinateItems (lat long : spec_float) : list http.item :=
  http.text " (" ++ [http.Float lat] ++ http.text ", " ++ [http.Float long]
  ++ http.text ") ".

(** The scheme [WriteJSON] puts before the configured host. *)
Definition scheme (req : http.Request) : string :=
  match http.TLS req with
  | Some _ => "https://"
  | None => "http://"
  end.

(** The header map after the three [Set] calls of [WriteJSON]. *)
Definition jsonHeader (s : myip.DefaultServer) (w : http.ResponseWriter)
    (req : http.Request) : http.Header :=
  textproto.Set_
    (textproto.Set_
       (textproto.Set_ (http.header w) "Content-Type" "application/json")
       "Access-Control-Allow-Origin" (scheme req +:+ conf.Host (myip.Config s)))
    "Vary" "Origin".

(** The address [GetRemoteAddr] goes on with when the debug override does
    not apply: the value of the trusted header when that applies, the peer
    address otherwise. *)
Definition observed (s : myip.DefaultServer) (req : http.Request) : string :=
  if forwarded s req
  then textproto.Get (http.Header_ req) (conf.IPHeader (myip.Config s))
  else http.RemoteAddr req.

(** The server [s] with another debug flag, and with another trusted header
    name. *)
Definition withDebug (debug : bool) (s : myip.DefaultServer) : myip.DefaultServer :=
  myip.mkDefaultServer
    (conf.mkConfig debug (conf.IPHeader (myip.Config s)) (conf.Host (myip.Config s))).

Definition withIPHeader (key : string) (s : myip.DefaultServer) : myip.DefaultServer :=
  myip.mkDefaultServer
    (conf.mkConfig (conf.Debug (myip.Config s)) key (conf.Host (myip.Config s))).

(** The byte that the loop of [textproto.canonicalize] writes for [c]. *)
Definition canonByte (upper : bool) (c : ascii) : ascii :=
  if (upper && textproto.isLower c)%bool then
    Ascii.ascii_of_N (Ascii.N_of_ascii c - textproto.toLower)
  else if (negb upper && textproto.isUpper c)%bool then
    Ascii.ascii_of_N (Ascii.N_of_ascii c + textproto.toLower)
  else c.

(** The member names of the encoding of a [Response], in the order of the
    struct's fields. *)
Definition allKeys : list string :=
  ["RequestID"; "RemoteAddr"; "RemoteAddrFamily"; "RemoteAddrReverse";
   "RemoteAddrWhois"; "ActualRemoteAddr"; "Method"; "URL"; "Proto"; "Header";
   "Location"; "UserAgent"; "Insights"].

Definition optionalKey (name : string) (present : bool) : list string :=
  if present then [name] else [].

Definition isSome {A} (p : option A) : bool :=
  match p with
  | Some _ => true
  | None => false
  end.

Definition responseKeys (r : myip.Response) : list string :=
  optionalKey "RequestID" (negb (String.eqb (myip.RequestID r) ""))
  ++ ["RemoteAddr"; "RemoteAddrFamily"]
  ++ optionalKey "RemoteAddrReverse" (isSome (myip.RemoteAddrReverse r))
  ++ optionalKey "RemoteAddrWhois" (isSome (myip.RemoteAddrWhois r))
  ++ optionalKey "ActualRemoteAddr" (negb (String.eqb (myip.ActualRemoteAddr r) ""))
  ++ ["Method"; "URL"; "Proto"; "Header"]
  ++ optionalKey "Location" (isSome (myip.Location r))
  ++ optionalKey "UserAgent" (isSome (myip.UserAgent r))
  ++ optionalKey "Insights" (negb (bool_decide (myip.Insights r = ∅))).

(** Reading a member of a JSON object by its name: the first member of that
    name. *)
Fixpoint memberValue (name : string) (members : list (string * json.Value))
  : option json.Value :=
  match members with
  | [] => None
  | (k, v) :: members' =>
      if String.eqb k name then Some v else memberValue name members'
  end.

Definition getMember (name : string) (doc : json.Value) : option json.Value :=
  match doc with
  | json.Object members => memberValue name members
  | _ => None
  end.

(** Further concrete inputs. *)
Module inputs.

(** The proxy sends the client's address with its port. *)
Definition proxiedPortRequest : http.Request :=
  sample.request "/json" sample.browser ∅
    {[ "X-Real-Ip" := ["198.51.100.9:8443"] ]} "10.0.0.1:40000".

(** IPv6 peers: in brackets with a port, and bare. *)
Definition bracketedRequest : http.Request :=
  sample.request "/json" sample.browser ∅ ∅ "[2001:db8::1]:54321".

Definition bareIPv6Request : http.Request :=
  sample.request "/json" sample.browser ∅ ∅ "2001:db8::1".

(** The plain request with more headers, which no configuration names. *)
Definition decoratedRequest : http.Request :=
  sample.request "/json" sample.browser ∅
    {[ "X-Forwarded-For" := ["203.0.113.7"]; "X-Forwarded-Proto" := ["https"] ]}
    "192.0.2.5:54321".



(** The full response with other values in the fields [cliTmpl] does not
    read. *)
Definition otherMetadata : myip.Response :=
  myip.mkResponse "req-1" "192.0.2.5" "IPv6"
    (Some (dns.mkResponse ["host.example."]))
    (Some (whois.mkResponse "NetName: TEST-NET-1"))
    "10.0.0.1" "POST" "/json" "HTTP/2.0" {[ "Accept" := ["*/*"] ]}
    (Some sample.london) None {[ "note" := "degraded" ]}.

End inputs.

(** * Properties *)

(** ** Strings *)

Section StringFacts.

Implicit Types (s t : string) (c : ascii).

Lemma eqb_empty_false s : s <> "" -> String.eqb s "" = false.
Proof. intros H. apply String.eqb_neq. exact H. Qed.

Lemma app_nil t : "" +:+ t = t.
Proof. reflexivity. Qed.

Lemma app_cons a s t : String a s +:+ t = String a (s +:+ t).
Proof. reflexivity. Qed.

Lemma IndexByteString_app s t c :
  gostrings.IndexByteString (s +:+ t) c =
    match gostrings.IndexByteString s c with
    | Some i => Some i
    | None =>
        match gostrings.IndexByteString t c with
        | Some i => Some (String.length s + i)
        | None => None
        end
    end.
Proof.
  induction s as [|a s IH]; rewrite ?app_nil, ?app_cons; simpl.
  - destruct (gostrings.IndexByteString t c); reflexivity.
  - destruct (Ascii.eqb a c); [reflexivity|].
    rewrite IH.
    destruct (gostrings.IndexByteString s c); [reflexivity|].
    destruct (gostrings.IndexByteString t c); reflexivity.
Qed.

Lemma contains_app s t c :
  net.contains (s +:+ t) c = (net.contains s c || net.contains t c)%bool.
Proof.
  unfold net.contains. rewrite IndexByteString_app.
  destruct (gostrings.IndexByteString s c); [reflexivity|].
  destruct (gostrings.IndexByteString t c); reflexivity.
Qed.

Lemma LastIndexByteString_None s c :
  net.contains s c = false -> gostrings.LastIndexByteString s c = None.
Proof.
  unfold net.contains. induction s as [|a s IH]; simpl; [reflexivity|].
  destruct (Ascii.eqb a c); [discriminate|].
  destruct (gostrings.IndexByteString s c); [discriminate|].
  intros _. rewrite IH; reflexivity.
Qed.

Lemma LastIndexByteString_sep s t c :
  net.contains t c = false ->
  gostrings.LastIndexByteString (s +:+ String c t) c = Some (String.length s).
Proof.
  intros Ht. induction s as [|a s IH]; rewrite ?app_nil, ?app_cons; simpl.
  - rewrite (LastIndexByteString_None t c Ht), Ascii.eqb_refl. reflexivity.
  - rewrite IH. reflexivity.
Qed.

Lemma substring_all s : String.substring 0 (String.length s) s = s.
Proof. induction s as [|a s IH]; simpl; [reflexivity | rewrite IH; reflexivity]. Qed.

Lemma substring_prefix s t : String.substring 0 (String.length s) (s +:+ t) = s.
Proof.
  induction s as [|a s IH]; rewrite ?app_nil, ?app_cons; simpl.
  - destruct t; reflexivity.
  - rewrite IH. reflexivity.
Qed.

Lemma substring_suffix s t c :
  String.substring (String.length s + 1) (String.length t) (s +:+ String c t) = t.
Proof.
  induction s as [|a s IH]; rewrite ?app_nil, ?app_cons; simpl.
  - apply substring_all.
  - exact IH.
Qed.

Lemma string_length_app s t : String.length (s +:+ t) = String.length s + String.length t.
Proof.
  induction s as [|a s IH]; rewrite ?app_nil, ?app_cons; simpl;
    [reflexivity | rewrite IH; reflexivity].
Qed.

Lemma first_app_sep s t c d :
  net.contains s d = false -> c <> d ->
  gostrings.first (s +:+ String c t) <> Some d.
Proof.
  unfold gostrings.first, net.contains.
  destruct s as [|a s]; rewrite ?app_nil, ?app_cons; simpl.
  - intros _ Hcd [=]. contradiction.
  - destruct (Ascii.eqb_spec a d) as [->|Hne]; [discriminate|].
    intros _ _ [=]. contradiction.
Qed.

End StringFacts.

(** ** net.SplitHostPort *)

(** A host and a port free of ':', '[' and ']', joined by a colon, are split
    at the colon. *)
Lemma SplitHostPort_join (host port : string) :
  plain host = true -> plain port = true ->
  net.SplitHostPort (host +:+ ":" +:+ port) = (host, port, None).
Proof.
  unfold plain. intros Hh Hp.
  apply andb_prop in Hh as [Hh Hh3]. apply andb_prop in Hh as [Hh1 Hh2].
  apply andb_prop in Hp as [Hp Hp3]. apply andb_prop in Hp as [Hp1 Hp2].
  apply negb_true_iff in Hh1, Hh2, Hh3, Hp1, Hp2, Hp3.
  unfold net.SplitHostPort.
  change (":" +:+ port) with (String ":" port).
  rewrite (LastIndexByteString_sep host port ":" Hp1).
  rewrite bool_decide_eq_false_2 by (apply first_app_sep; [exact Hh2 | discriminate]).
  unfold gostrings.sliceTo. rewrite substring_prefix, Hh1.
  unfold gostrings.sliceFrom.
  rewrite Nat.sub_0_r, substring_all.
  change (String ":" port) with (":" +:+ port).
  rewrite !contains_app, Hh2, Hh3, Hp2, Hp3. simpl.
  change (":" +:+ port) with (String ":" port).
  rewrite string_length_app. simpl String.length.
  replace (String.length host + S (String.length port) - (String.length host + 1))
    with (String.length port) by lia.
  rewrite substring_suffix. reflexivity.
Qed.

(** An address without any colon does not parse as host:port. *)
Lemma SplitHostPort_no_colon (addr : string) :
  net.contains addr ":" = false -> isHostPort addr = false.
Proof.
  intros H. unfold isHostPort, net.SplitHostPort.
  rewrite (LastIndexByteString_None addr ":" H). reflexivity.
Qed.

(** ** Address resolution: [GetRemoteAddr] *)

Section GetRemoteAddr.

Variable s : myip.DefaultServer.
Implicit Types req : http.Request.

(** The tail of [GetRemoteAddr], from the call of [net.SplitHostPort]. *)
Lemma GetRemoteAddr_peer req :
  overridden s req = false -> forwarded s req = false ->
  myip.GetRemoteAddr s req =
    let '(host, _, err) := net.SplitHostPort (http.RemoteAddr req) in
    match err with
    | Some _ => (http.RemoteAddr req, None)
    | None => (host, None)
    end.
Proof.
  unfold overridden, forwarded, myip.GetRemoteAddr. intros -> Hf.
  destruct (negb (String.eqb (conf.IPHeader (myip.Config s)) "")); simpl in Hf |- *.
  - rewrite Hf. destruct (net.SplitHostPort _) as [[h p] [e|]]; reflexivity.
  - destruct (net.SplitHostPort _) as [[h p] [e|]]; reflexivity.
Qed.

Lemma GetRemoteAddr_header req :
  overridden s req = false -> forwarded s req = true ->
  myip.GetRemoteAddr s req =
    let addr := textproto.Get (http.Header_ req) (conf.IPHeader (myip.Config s)) in
    let '(host, _, err) := net.SplitHostPort addr in
    match err with
    | Some _ => (addr, None)
    | None => (host, None)
    end.
Proof.
  unfold overridden, forwarded, myip.GetRemoteAddr. intros -> Hf.
  apply andb_prop in Hf as [-> ->]. simpl.
  destruct (net.SplitHostPort _) as [[h p] [e|]]; reflexivity.
Qed.

End GetRemoteAddr.

(** C10: for every server configuration and every request, the error that
    [GetRemoteAddr] returns is nil, on the debug-override return, on the
    return for an address that does not parse and on the return after a
    successful split (where the error returned is the nil error of
    [net.SplitHostPort]). *)
Theorem GetRemoteAddr_error_nil (s : myip.DefaultServer) (req : http.Request) :
  snd (myip.GetRemoteAddr s req) = None.
Proof.
  unfold myip.GetRemoteAddr.
  destruct (negb _ && _)%bool; [reflexivity|].
  destruct (net.SplitHostPort _) as [[host port] [e|]]; reflexivity.
Qed.



(** C3, as stated, fails when the debug override applies: with debug on,
    [?host=203.0.113.7] wins over a non-empty, port-free X-Real-IP. *)
Lemma GetRemoteAddr_trusted_header_counterexample :
  conf.IPHeader (myip.Config (sample.server true "X-Real-IP")) <> ""
  /\ textproto.Get (http.Header_ sample.proxiedOverrideRequest) "X-Real-IP"
     = "198.51.100.9"
  /\ isHostPort "198.51.100.9" = false
  /\ myip.GetRemoteAddr (sample.server true "X-Real-IP") sample.proxiedOverrideRequest
     = ("203.0.113.7", None)
  /\ fst (myip.GetRemoteAddr (sample.server true "X-Real-IP")
            sample.proxiedOverrideRequest) <> "198.51.100.9".
Proof.
  split; [discriminate|].
  split; [vm_compute; reflexivity|].
  split; [vm_compute; reflexivity|].
  split; [vm_compute; reflexivity|].
  vm_compute. discriminate.
Qed.

(** C3, amended: when the debug override does not apply, [IPHeader] is
    configured and the request has a non-empty value for that header which
    does not parse as host:port, [GetRemoteAddr] returns the header value
    with a nil error, whatever the peer address is. *)
Theorem GetRemoteAddr_trusted_header
    (s : myip.DefaultServer) (req : http.Request) (addr : string) :
  overridden s req = false ->
  conf.IPHeader (myip.Config s) <> "" ->
  textproto.Get (http.Header_ req) (conf.IPHeader (myip.Config s)) = addr ->
  addr <> "" ->
  isHostPort addr = false ->
  myip.GetRemoteAddr s req = (addr, None).
Proof.
  intros Ho Hc Hg Hne Hp.
  rewrite GetRemoteAddr_header; [| exact Ho |].
  - rewrite Hg. unfold isHostPort in Hp. cbv zeta.
    destruct (net.SplitHostPort addr) as [[h p] [e|]]; [reflexivity | discriminate].
  - unfold forwarded. rewrite Hg, (eqb_empty_false _ Hc), (eqb_empty_false _ Hne).
    reflexivity.
Qed.

Lemma GetRemoteAddr_trusted_header_witness :
  myip.GetRemoteAddr (sample.server false "X-Real-IP") sample.proxiedRequest
    = ("198.51.100.9", None).
Proof.
  apply GetRemoteAddr_trusted_header;
    [vm_compute; reflexivity | discriminate | vm_compute; reflexivity
    | discriminate | vm_compute; reflexivity].
Defined.

(** C4: when the address comes from the peer address (neither the debug
    override nor the trusted header applies), a peer address that parses as
    host:port resolves to its host with a nil error, in particular an
    address made of a host and a port joined by a colon; a peer address
    that does not parse is returned unchanged with a nil error. *)
Theorem GetRemoteAddr_peer_address (s : myip.DefaultServer) (req : http.Request) :
  overridden s req = false -> forwarded s req = false ->
  (forall host port,
      net.SplitHostPort (http.RemoteAddr req) = (host, port, None) ->
      myip.GetRemoteAddr s req = (host, None))
  /\ (forall host port,
        plain host = true -> plain port = true ->
        http.RemoteAddr req = host +:+ ":" +:+ port ->
        myip.GetRemoteAddr s req = (host, None))
  /\ (isHostPort (http.RemoteAddr req) = false ->
      myip.GetRemoteAddr s req = (http.RemoteAddr req, None)).
Proof.
  intros Ho Hf. rewrite (GetRemoteAddr_peer s req Ho Hf).
  split; [| split].
  - intros host port ->. reflexivity.
  - intros host port Hh Hp ->. rewrite (SplitHostPort_join host port Hh Hp).
    reflexivity.
  - unfold isHostPort.
    destruct (net.SplitHostPort _) as [[h p] [e|]]; [reflexivity | discriminate].
Qed.

Lemma GetRemoteAddr_peer_address_witness :
  myip.GetRemoteAddr (sample.server false "") sample.plainRequest = ("192.0.2.5", None)
  /\ myip.GetRemoteAddr (sample.server false "") sample.barePeerRequest
     = ("192.0.2.5", None).
Proof.
  split.
  - apply (proj1 (proj2 (GetRemoteAddr_peer_address (sample.server false "")
                           sample.plainRequest eq_refl eq_refl)) "192.0.2.5" "54321");
      reflexivity.
  - apply (proj2 (proj2 (GetRemoteAddr_peer_address (sample.server false "")
                           sample.barePeerRequest eq_refl eq_refl))).
    reflexivity.
Defined.

(** ** The ResponseWriter *)

Section ResponseWriter.

Implicit Types (w : http.ResponseWriter) (data : list http.item).

Lemma header_WriteHeader code w : http.header (http.WriteHeader code w) = http.header w.
Proof. unfold http.WriteHeader. destruct (http.status w); reflexivity. Qed.

Lemma header_Write data w : http.header (http.Write data w) = http.header w.
Proof. unfold http.Write. simpl. apply header_WriteHeader. Qed.

Lemma body_WriteHeader code w : http.body (http.WriteHeader code w) = http.body w.
Proof. unfold http.WriteHeader. destruct (http.status w); reflexivity. Qed.

Lemma sent_WriteHeader code w :
  http.sent (http.WriteHeader code w)
  = match http.status w with
    | Some _ => http.sent w
    | None => http.header w
    end.
Proof. unfold http.WriteHeader. destruct (http.status w); reflexivity. Qed.

Lemma status_WriteHeader code w :
  http.status (http.WriteHeader code w) = Some (default code (http.status w)).
Proof. unfold http.WriteHeader. destruct (http.status w) eqn:E; simpl; congruence. Qed.

(** A second [WriteHeader] is superfluous. *)
Lemma WriteHeader_superfluous code code' w :
  http.WriteHeader code' (http.WriteHeader code w) = http.WriteHeader code w.
Proof. unfold http.WriteHeader. destruct (http.status w) eqn:E; simpl; rewrite ?E; reflexivity. Qed.

Lemma Write_WriteHeader data w :
  http.Write data w = http.Write data (http.WriteHeader http.StatusOK w).
Proof. unfold http.Write. rewrite WriteHeader_superfluous. reflexivity. Qed.

Lemma Write_started data w c :
  http.status w = Some c ->
  http.Write data w = {| http.header := http.header w;
                         http.status := Some c;
                         http.sent := http.sent w;
                         http.body := http.body w ++ data |}.
Proof. intros H. unfold http.Write, http.WriteHeader. rewrite H. simpl. rewrite H. reflexivity. Qed.

Lemma WriteHeader_started code w c :
  http.status w = Some c -> http.WriteHeader code w = w.
Proof. intros H. unfold http.WriteHeader. rewrite H. reflexivity. Qed.

Lemma text_app (s t : string) : http.text (s +:+ t) = http.text s ++ http.text t.
Proof.
  unfold http.text. induction s as [|a s IH]; rewrite ?app_nil, ?app_cons; simpl.
  - reflexivity.
  - f_equal. exact IH.
Qed.

Lemma canonical_ContentType : textproto.CanonicalMIMEHeaderKey "Content-Type" = "Content-Type".
Proof. reflexivity. Qed.

Lemma canonical_Vary : textproto.CanonicalMIMEHeaderKey "Vary" = "Vary".
Proof. reflexivity. Qed.

Lemma canonical_ACAO :
  textproto.CanonicalMIMEHeaderKey "Access-Control-Allow-Origin"
  = "Access-Control-Allow-Origin".
Proof. reflexivity. Qed.

End ResponseWriter.

(** ** The walk of [cliTmpl] *)

Section Emits.

Context {A B : Type}.
Implicit Types (m : template.exec A) (k : A -> template.exec B).

Lemma emits_eq m items items' res :
  emits m items res -> items = items' -> emits m items' res.
Proof. intros H <-. exact H. Qed.

Lemma emits_ret (a : A) : emits (template.ret a) [] (inr a).
Proof.
  intros [h st sn b] c Hs. simpl in Hs. subst st.
  unfold template.ret. simpl. rewrite app_nil_r. reflexivity.
Qed.

Lemma emits_fail (e : error) : emits (@template.fail A e) [] (inl e).
Proof.
  intros [h st sn b] c Hs. simpl in Hs. subst st.
  unfold template.fail. simpl. rewrite app_nil_r. reflexivity.
Qed.

Lemma emits_bind m k i1 i2 (a : A) res :
  emits m i1 (inr a) -> emits (k a) i2 res -> emits (template.bind m k) (i1 ++ i2) res.
Proof.
  intros Hm Hk w c Hs. unfold template.bind.
  rewrite (Hm w c Hs). erewrite Hk by reflexivity. simpl.
  rewrite app_assoc. reflexivity.
Qed.

Lemma emits_bind_fail m k i1 (e : error) :
  emits m i1 (inl e) -> emits (template.bind m k) i1 (inl e).
Proof.
  intros Hm w c Hs. unfold template.bind. rewrite (Hm w c Hs). reflexivity.
Qed.

Lemma emits_evalField_some name loc node typ field (a : A) (get : A -> B) :
  emits (template.evalField name loc node typ field (Some a) get) [] (inr (get a)).
Proof.
  intros [h st sn b] c Hs. simpl in Hs. subst st.
  unfold template.evalField, template.ret. simpl. rewrite app_nil_r. reflexivity.
Qed.

Lemma emits_evalField_none name loc node typ field (get : A -> B) :
  emits (template.evalField name loc node typ field None get) []
    (inl (errors.ExecError name loc node
            ("nil pointer evaluating " +:+ typ +:+ "." +:+ field))).
Proof.
  intros [h st sn b] c Hs. simpl in Hs. subst st.
  unfold template.evalField, template.errorf, template.fail. simpl.
  rewrite app_nil_r. reflexivity.
Qed.

End Emits.

Lemma emits_writeText (s : string) : emits (template.writeText s) (http.text s) (inr tt).
Proof.
  intros w c Hs. unfold template.writeText. rewrite (Write_started _ w c Hs). reflexivity.
Qed.

Lemma emits_printFloat (f : spec_float) :
  emits (template.printFloat f) [http.Float f] (inr tt).
Proof.
  intros w c Hs. unfold template.printFloat. rewrite (Write_started _ w c Hs). reflexivity.
Qed.

Ltac emit_step :=
  first
    [ apply emits_writeText
    | apply emits_printFloat
    | apply emits_evalField_some
    | apply emits_ret ].

Ltac emit_seq :=
  repeat (eapply emits_bind; [ emit_step | cbv beta ]).

Lemma emits_range_dns (names : list string) :
  emits
    (template.range names (fun name =>
       template.bind (template.writeText "DNS: ") (fun _ =>
       template.bind (template.writeText name) (fun _ =>
       template.writeText gostrings.nl))))
    (dnsLines names) (inr tt).
Proof.
  induction names as [|name names IH]; simpl.
  - apply emits_ret.
  - eapply emits_eq.
    + eapply emits_bind; [| exact IH]. emit_seq. emit_step.
    + rewrite <- !app_assoc. reflexivity.
Qed.

(** The coordinates are printed exactly when [ne] holds of the latitude and
    of the longitude. *)
Lemma emits_coordinates (loc : location.Response) :
  emits (myip.coordinates loc)
    (if (template.ne (location.Lat loc) myip.zero
         && template.ne (location.Long loc) myip.zero)%bool
     then coordinateItems (location.Lat loc) (location.Long loc)
     else [])
    (inr tt).
Proof.
  unfold myip.coordinates.
  destruct (_ && _)%bool.
  - unfold coordinateItems. emit_seq. emit_step.
  - apply emits_ret.
Qed.

Ltac walk_step :=
  first [ emit_step | apply emits_range_dns | apply emits_coordinates ].

Ltac use_fields :=
  repeat match goal with
         | H : ?x = Some _ |- context [?x] => rewrite H
         | H : ?x = None |- context [?x] => rewrite H
         end.

Ltac walk_seq :=
  repeat (eapply emits_bind; [ walk_step | cbv beta delta [id]; use_fields ]).

Section Walk.

Variable r : myip.Response.

(** The output for a response with every pointer the template reads. *)
Lemma walk_full (rev : dns.Response) (wh : whois.Response) (loc : location.Response) :
  myip.RemoteAddrReverse r = Some rev ->
  myip.RemoteAddrWhois r = Some wh ->
  myip.Location r = Some loc ->
  emits (myip.cliTmplWalk (myip.PtrResponse (Some r)))
    (beforeCoordinates r (dns.Names rev) (whois.Body wh) loc
     ++ (if (template.ne (location.Lat loc) myip.zero
             && template.ne (location.Long loc) myip.zero)%bool
         then coordinateItems (location.Lat loc) (location.Long loc)
         else [])
     ++ afterCoordinates r)
    (inr tt).
Proof.
  intros Hrev Hwh Hloc. unfold myip.cliTmplWalk, myip.dot.
  eapply emits_eq.
  - walk_seq. walk_step.
  - unfold beforeCoordinates, afterCoordinates.
    rewrite <- !app_assoc. reflexivity.
Qed.

(** The walk stops at [.RemoteAddrReverse.Names] when the reverse DNS
    result is nil. *)
Lemma walk_noDNS :
  myip.RemoteAddrReverse r = None ->
  emits (myip.cliTmplWalk (myip.PtrResponse (Some r)))
    (http.text "IP: " ++ http.text (myip.RemoteAddr r) ++ http.text gostrings.nl)
    (inl (errors.ExecError "test" "2:26" ".RemoteAddrReverse.Names"
            "nil pointer evaluating *dns.Response.Names")).
Proof.
  intros Hrev. unfold myip.cliTmplWalk, myip.dot.
  eapply emits_eq.
  - walk_seq. eapply emits_bind_fail. apply emits_evalField_none.
  - rewrite ?app_nil_r. reflexivity.
Qed.

(** The walk stops at [.RemoteAddrWhois.Body] when the WHOIS result is
    nil. *)
Lemma walk_noWhois (rev : dns.Response) :
  myip.RemoteAddrReverse r = Some rev ->
  myip.RemoteAddrWhois r = None ->
  emits (myip.cliTmplWalk (myip.PtrResponse (Some r)))
    (http.text "IP: " ++ http.text (myip.RemoteAddr r) ++ http.text gostrings.nl
     ++ dnsLines (dns.Names rev)
     ++ http.text (gostrings.nl +:+ "WHOIS:" +:+ gostrings.nl))
    (inl (errors.ExecError "test" "5:18" ".RemoteAddrWhois.Body"
            "nil pointer evaluating *whois.Response.Body")).
Proof.
  intros Hrev Hwh. unfold myip.cliTmplWalk, myip.dot.
  eapply emits_eq.
  - walk_seq. eapply emits_bind_fail. apply emits_evalField_none.
  - rewrite ?app_nil_r. reflexivity.
Qed.

(** The walk stops at [.Location.City] when the location is nil. *)
Lemma walk_noLocation (rev : dns.Response) (wh : whois.Response) :
  myip.RemoteAddrReverse r = Some rev ->
  myip.RemoteAddrWhois r = Some wh ->
  myip.Location r = None ->
  emits (myip.cliTmplWalk (myip.PtrResponse (Some r)))
    (http.text "IP: " ++ http.text (myip.RemoteAddr r) ++ http.text gostrings.nl
     ++ dnsLines (dns.Names rev)
     ++ http.text (gostrings.nl +:+ "WHOIS:" +:+ gostrings.nl)
     ++ http.text (whois.Body wh)
     ++ http.text (gostrings.nl +:+ gostrings.nl +:+ "Location: "))
    (inl (errors.ExecError "test" "7:21" ".Location.City"
            "nil pointer evaluating *location.Response.City")).
Proof.
  intros Hrev Hwh Hloc. unfold myip.cliTmplWalk, myip.dot.
  eapply emits_eq.
  - walk_seq. eapply emits_bind_fail. apply emits_evalField_none.
  - rewrite ?app_nil_r. reflexivity.
Qed.

End Walk.

Lemma walk_nil :
  emits (myip.cliTmplWalk (myip.PtrResponse None)) (http.text "IP: ")
    (inl (errors.ExecError "test" "1:6" ".RemoteAddr"
            "nil pointer evaluating *myip.Response.RemoteAddr")).
Proof.
  unfold myip.cliTmplWalk, myip.dot.
  eapply emits_eq.
  - walk_seq. eapply emits_bind_fail. apply emits_evalField_none.
  - rewrite ?app_nil_r. reflexivity.
Qed.

Lemma walk_ErrResponse (e : myip.ErrResponse) :
  emits (myip.cliTmplWalk (myip.PtrErrResponse e)) (http.text "IP: ")
    (inl (errors.ExecError "test" "1:6" ".RemoteAddr"
            "can't evaluate field RemoteAddr in type *myip.ErrResponse")).
Proof.
  unfold myip.cliTmplWalk, myip.dot.
  eapply emits_eq.
  - walk_seq. eapply emits_bind_fail. apply emits_fail.
  - rewrite ?app_nil_r. reflexivity.
Qed.

(** Whatever the data, the walk first writes [IP: ]. *)
Lemma walk_cases (data : myip.any) :
  exists items res, emits (myip.cliTmplWalk data) (http.text "IP: " ++ items) res.
Proof.
  destruct data as [[r|]|e].
  - destruct (myip.RemoteAddrReverse r) as [rev|] eqn:Hrev;
      [ destruct (myip.RemoteAddrWhois r) as [wh|] eqn:Hwh;
        [ destruct (myip.Location r) as [loc|] eqn:Hloc | ] | ].
    + eexists _, _. eapply emits_eq; [apply (walk_full r rev wh loc); assumption|].
      unfold beforeCoordinates. rewrite <- !app_assoc. reflexivity.
    + eexists _, _. apply (walk_noLocation r rev wh); assumption.
    + eexists _, _. apply (walk_noWhois r rev); assumption.
    + eexists _, _. apply (walk_noDNS r); assumption.
  - exists []. eexists. rewrite app_nil_r. apply walk_nil.
  - exists []. eexists. rewrite app_nil_r. apply walk_ErrResponse.
Qed.

Lemma bind_writeText_start {A} (s : string) (k : unit -> template.exec A)
    (w : http.ResponseWriter) :
  template.bind (template.writeText s) k w
  = template.bind (template.writeText s) k (http.WriteHeader http.StatusOK w).
Proof.
  unfold template.bind, template.writeText.
  rewrite (Write_WriteHeader _ w). reflexivity.
Qed.

(** [cliTmpl.Execute] on any writer, from the output of the walk. *)
Lemma Execute_cliTmpl (data : myip.any) items res (w : http.ResponseWriter) :
  emits (myip.cliTmplWalk data) items res ->
  template.Execute myip.cliTmpl data w =
    ({| http.header := http.header w;
        http.status := Some (default http.StatusOK (http.status w));
        http.sent := match http.status w with
                     | Some _ => http.sent w
                     | None => http.header w
                     end;
        http.body := http.body w ++ items |},
     match res with inl e => Some e | inr _ => None end).
Proof.
  intros H. simpl. unfold template.run.
  replace (myip.cliTmplWalk data w)
    with (myip.cliTmplWalk data (http.WriteHeader http.StatusOK w))
    by (unfold myip.cliTmplWalk; symmetry; apply bind_writeText_start).
  rewrite (H _ _ (status_WriteHeader _ w)).
  rewrite header_WriteHeader, body_WriteHeader, sent_WriteHeader.
  destruct res; reflexivity.
Qed.

(** ** [WriteText] *)

Section WriteText.

Variable s : myip.DefaultServer.
Variables (w : http.ResponseWriter) (req : http.Request).
Hypothesis Hw : http.unwritten w.

(** The pipeline failed: status 500 and the error text. *)
Lemma WriteText_pipeline_error tmpl data (e : error) :
  myip.WriteText s w req tmpl data (Some e) =
    {| http.header := textproto.Set_ (http.header w) "Content-Type" "text/plain";
       http.status := Some 500;
       http.sent := textproto.Set_ (http.header w) "Content-Type" "text/plain";
       http.body := http.text (errors.Error e) |}.
Proof.
  destruct Hw as [Hs Hb]. unfold myip.WriteText, http.Write, http.WriteHeader, http.SetHeader.
  simpl. rewrite Hs, Hb. reflexivity.
Qed.

(** The template ran to its end: status 200 and its output. *)
Lemma WriteText_ok data items :
  emits (myip.cliTmplWalk data) items (inr tt) ->
  myip.WriteText s w req myip.cliTmpl data None =
    {| http.header := textproto.Set_ (http.header w) "Content-Type" "text/plain";
       http.status := Some 200;
       http.sent := textproto.Set_ (http.header w) "Content-Type" "text/plain";
       http.body := items |}.
Proof.
  intros H. destruct Hw as [Hs Hb]. unfold myip.WriteText.
  rewrite (Execute_cliTmpl data items _ _ H). simpl. rewrite Hs, Hb. reflexivity.
Qed.

(** The template failed: the status is the 200 of its first write, and the
    error text follows what it had written. *)
Lemma WriteText_exec_error data items (e : error) :
  emits (myip.cliTmplWalk data) items (inl e) ->
  myip.WriteText s w req myip.cliTmpl data None =
    {| http.header := textproto.Set_ (http.header w) "Content-Type" "text/plain";
       http.status := Some 200;
       http.sent := textproto.Set_ (http.header w) "Content-Type" "text/plain";
       http.body := items ++ http.text (errors.Error e) |}.
Proof.
  intros H. destruct Hw as [Hs Hb]. unfold myip.WriteText.
  rewrite (Execute_cliTmpl data items _ _ H). simpl. rewrite Hs, Hb. reflexivity.
Qed.

End WriteText.


(** C6, as stated, fails for a location with latitude 0.0 and longitude
    1.5: the two are not both zero, and the coordinates are left out. *)
Lemma cliTmpl_coordinates_counterexample :
  let r := sample.fullResponse sample.equator in
  let out :=
    http.body (myip.WriteText (sample.server false "") sample.w0 sample.curlRequest
                 myip.cliTmpl (myip.PtrResponse (Some r)) None) in
  ~ (SFeqb (location.Lat sample.equator) myip.zero = true
     /\ SFeqb (location.Long sample.equator) myip.zero = true)
  /\ out = beforeCoordinates r ["host.example."] "NetName: TEST-NET-1" sample.equator
           ++ afterCoordinates r
  /\ out <> beforeCoordinates r ["host.example."] "NetName: TEST-NET-1" sample.equator
            ++ coordinateItems (location.Lat sample.equator) (location.Long sample.equator)
            ++ afterCoordinates r.
Proof.
  cbv zeta. split; [| split].
  - intros [_ H]. vm_compute in H. discriminate.
  - vm_compute. reflexivity.
  - intros H. apply (f_equal (@length http.item)) in H. vm_compute in H. discriminate.
Qed.

(** C6, amended: in the plain-text rendering of a response, the location
    line holds the coordinates, in the fixed format [ (lat, long) ] after
    the country, exactly when the latitude and the longitude are both
    different from 0.0; when at least one of them is 0.0 the line ends
    after the country. *)
Theorem cliTmpl_coordinates (s : myip.DefaultServer) (w : http.ResponseWriter)
    (req : http.Request) (r : myip.Response)
    (rev : dns.Response) (wh : whois.Response) (loc : location.Response) :
  http.unwritten w ->
  myip.RemoteAddrReverse r = Some rev ->
  myip.RemoteAddrWhois r = Some wh ->
  myip.Location r = Some loc ->
  let out :=
    http.body (myip.WriteText s w req myip.cliTmpl (myip.PtrResponse (Some r)) None) in
  (SFeqb (location.Lat loc) myip.zero = false ->
   SFeqb (location.Long loc) myip.zero = false ->
   out = beforeCoordinates r (dns.Names rev) (whois.Body wh) loc
         ++ coordinateItems (location.Lat loc) (location.Long loc)
         ++ afterCoordinates r)
  /\ (SFeqb (location.Lat loc) myip.zero = true
      \/ SFeqb (location.Long loc) myip.zero = true ->
      out = beforeCoordinates r (dns.Names rev) (whois.Body wh) loc
            ++ afterCoordinates r).
Proof.
  intros Hw Hrev Hwh Hloc out. subst out.
  rewrite (WriteText_ok s w req Hw _ _ (walk_full r rev wh loc Hrev Hwh Hloc)).
  simpl http.body. unfold template.ne. split.
  - intros -> ->. reflexivity.
  - intros [-> | ->]; [reflexivity|].
    rewrite andb_false_r. reflexivity.
Qed.

Lemma cliTmpl_coordinates_witness :
  http.body (myip.WriteText (sample.server false "") sample.w0 sample.curlRequest
               myip.cliTmpl (myip.PtrResponse (Some (sample.fullResponse sample.london)))
               None)
  = beforeCoordinates (sample.fullResponse sample.london) ["host.example."]
      "NetName: TEST-NET-1" sample.london
    ++ coordinateItems sample.f51_5 sample.f1_5
    ++ afterCoordinates (sample.fullResponse sample.london)
  /\ http.body (myip.WriteText (sample.server false "") sample.w0 sample.curlRequest
                  myip.cliTmpl (myip.PtrResponse (Some (sample.fullResponse sample.nowhere)))
                  None)
     = beforeCoordinates (sample.fullResponse sample.nowhere) ["host.example."]
         "NetName: TEST-NET-1" sample.nowhere
       ++ afterCoordinates (sample.fullResponse sample.nowhere).
Proof.
  split.
  - apply (proj1 (cliTmpl_coordinates (sample.server false "") sample.w0
                    sample.curlRequest (sample.fullResponse sample.london)
                    (dns.mkResponse ["host.example."])
                    (whois.mkResponse "NetName: TEST-NET-1") sample.london
                    (conj eq_refl eq_refl) eq_refl eq_refl eq_refl));
      reflexivity.
  - apply (proj2 (cliTmpl_coordinates (sample.server false "") sample.w0
                    sample.curlRequest (sample.fullResponse sample.nowhere)
                    (dns.mkResponse ["host.example."])
                    (whois.mkResponse "NetName: TEST-NET-1") sample.nowhere
                    (conj eq_refl eq_refl) eq_refl eq_refl eq_refl)).
    left. reflexivity.
Defined.

(** ** [WriteJSON] *)

Section WriteJSON.

Variable s : myip.DefaultServer.
Variables (w : http.ResponseWriter) (req : http.Request).

Lemma header_WriteJSON obj err :
  http.header (myip.WriteJSON s w req obj err) = jsonHeader s w req.
Proof.
  unfold myip.WriteJSON, myip.Encode, jsonHeader, scheme.
  destruct err as [e|]; rewrite header_Write; simpl;
    rewrite ?header_WriteHeader; reflexivity.
Qed.

Hypothesis Hw : http.unwritten w.

(** With an error: status 500 and the [ErrResponse] of its text.  The
    header is written by [WriteHeader(500)], before the three [Set] calls:
    it is sent as the writer had it on entry. *)
Lemma WriteJSON_error obj (e : error) :
  myip.WriteJSON s w req obj (Some e) =
    {| http.header := jsonHeader s w req;
       http.status := Some 500;
       http.sent := http.header w;
       http.body :=
         http.JSON (myip.MarshalErrResponse (myip.mkErrResponse (errors.Error e)))
         :: http.text gostrings.nl |}.
Proof.
  destruct Hw as [Hs Hb].
  unfold myip.WriteJSON, myip.Encode, http.Write, http.WriteHeader, http.SetHeader.
  simpl. rewrite Hs, Hb. reflexivity.
Qed.

(** Without an error: the implicit status 200 and the encoding of [obj]. *)
Lemma WriteJSON_ok obj :
  myip.WriteJSON s w req obj None =
    {| http.header := jsonHeader s w req;
       http.status := Some 200;
       http.sent := jsonHeader s w req;
       http.body := http.JSON (myip.Marshal obj) :: http.text gostrings.nl |}.
Proof.
  destruct Hw as [Hs Hb].
  unfold myip.WriteJSON, myip.Encode, http.Write, http.WriteHeader, http.SetHeader.
  simpl. rewrite Hs, Hb. reflexivity.
Qed.

End WriteJSON.

Lemma jsonHeader_ContentType s w req :
  jsonHeader s w req !! "Content-Type" = Some ["application/json"].
Proof.
  unfold jsonHeader, textproto.Set_.
  rewrite canonical_ContentType, canonical_ACAO, canonical_Vary.
  rewrite lookup_insert_ne by discriminate.
  rewrite lookup_insert_ne by discriminate.
  apply lookup_insert_eq.
Qed.


(** After [WriteJSON], whatever the object and the error, the header map
    of the writer holds Access-Control-Allow-Origin with [https://]
    followed by the configured host when the request came over TLS and
    [http://] followed by the host otherwise, Content-Type with
    [application/json], and Vary with [Origin]. *)
Lemma WriteJSON_headers (s : myip.DefaultServer) (w : http.ResponseWriter)
    (req : http.Request) (obj : myip.any) (err : option error) :
  let h := http.header (myip.WriteJSON s w req obj err) in
  h !! "Access-Control-Allow-Origin"
    = Some [match http.TLS req with
            | Some _ => "https://" +:+ conf.Host (myip.Config s)
            | None => "http://" +:+ conf.Host (myip.Config s)
            end]
  /\ h !! "Content-Type" = Some ["application/json"]
  /\ h !! "Vary" = Some ["Origin"].
Proof.
  cbv zeta. rewrite header_WriteJSON. split; [| split].
  - unfold jsonHeader, textproto.Set_, scheme.
    rewrite canonical_ContentType, canonical_ACAO, canonical_Vary.
    rewrite lookup_insert_ne by discriminate.
    rewrite lookup_insert_eq. destruct (http.TLS req); reflexivity.
  - apply jsonHeader_ContentType.
  - unfold jsonHeader, textproto.Set_. rewrite canonical_Vary.
    apply lookup_insert_eq.
Qed.

(** ** The handlers and the routes *)

Section Handlers.

Variable HandleMyIP : myip.DefaultServer -> http.Request -> option myip.Response * option error.
Variable HandleConfigJs : myip.DefaultServer -> http.HandlerFunc.
Variable addInsights : http.Request -> option myip.Response -> option myip.Response.
Variable fs : http.HandlerFunc.
Variable s : myip.DefaultServer.
Variable config : conf.Config.

Let app : myip.Server := myip.server HandleMyIP HandleConfigJs s.

Lemma jsonHandler_unfold (w : http.ResponseWriter) (req : http.Request) :
  http.unwritten w ->
  myip.jsonHandler addInsights app w req =
    {| http.header := jsonHeader s w req;
       http.status := Some (match snd (HandleMyIP s req) with
                            | Some _ => 500
                            | None => 200
                            end);
       http.sent := match snd (HandleMyIP s req) with
                    | Some _ => http.header w
                    | None => jsonHeader s w req
                    end;
       http.body :=
         http.JSON
           (myip.Marshal
              match snd (HandleMyIP s req) with
              | Some e => myip.PtrErrResponse (myip.mkErrResponse (errors.Error e))
              | None => myip.PtrResponse (fst (HandleMyIP s req))
              end)
         :: http.text gostrings.nl |}.
Proof.
  intros Hw. unfold myip.jsonHandler, app. simpl.
  destruct (HandleMyIP s req) as [response [e|]]; simpl.
  - apply (WriteJSON_error s w req Hw).
  - apply (WriteJSON_ok s w req Hw).
Qed.

Lemma cliHandler_unfold (w : http.ResponseWriter) (req : http.Request) :
  myip.cliHandler app w req =
    myip.WriteText s w req myip.cliTmpl
      (myip.PtrResponse (fst (HandleMyIP s req))) (snd (HandleMyIP s req)).
Proof.
  unfold myip.cliHandler, app. simpl.
  destruct (HandleMyIP s req) as [response err]. reflexivity.
Qed.

(** The route taken: the script matcher is tried before the paths. *)
Lemma ServeHTTP_Register (w : http.ResponseWriter) (req : http.Request) :
  mux.ServeHTTP (myip.Register addInsights fs app config) w req =
    if myip.isCli req then myip.cliHandler app w req
    else if String.eqb (url.Path (http.URL req)) "/json" then
      myip.jsonHandler addInsights app w req
    else if String.eqb (url.Path (http.URL req)) "/config.js" then
      HandleConfigJs s w req
    else if gostrings.HasPrefix (url.Path (http.URL req)) "/" then fs w req
    else mux.NotFound w req.
Proof.
  unfold mux.ServeHTTP, myip.Register. cbn [mux.Match].
  cbn [mux.matches mux.handler mux.MatcherFunc mux.HandleFunc mux.PathPrefix].
  destruct (myip.isCli req); [reflexivity|].
  destruct (String.eqb (url.Path (http.URL req)) "/json"); [reflexivity|].
  destruct (String.eqb (url.Path (http.URL req)) "/config.js"); [reflexivity|].
  destruct (gostrings.HasPrefix (url.Path (http.URL req)) "/"); reflexivity.
Qed.

End Handlers.






(** C7 fails on the plain-text path: when [HandleMyIP] returns, with a nil
    error, a response whose reverse DNS, WHOIS or location result is nil,
    the execution of [cliTmpl] returns an error, and the body ends with the
    text of that error after what the template had written. *)
Theorem cliHandler_absent_enrichment
    (HandleMyIP : myip.DefaultServer -> http.Request -> option myip.Response * option error)
    (HandleConfigJs : myip.DefaultServer -> http.HandlerFunc)
    (s : myip.DefaultServer) (w : http.ResponseWriter) (req : http.Request)
    (r : myip.Response) :
  http.unwritten w ->
  HandleMyIP s req = (Some r, None) ->
  myip.RemoteAddrReverse r = None \/ myip.RemoteAddrWhois r = None
  \/ myip.Location r = None ->
  let w' := myip.cliHandler (myip.server HandleMyIP HandleConfigJs s) w req in
  exists e,
    snd (template.Execute myip.cliTmpl (myip.PtrResponse (Some r))
           (http.SetHeader "Content-Type" "text/plain" w)) = Some e
    /\ exists partial, http.body w' = partial ++ http.text (errors.Error e).
Proof.
  intros Hw Hh Hnil w'. subst w'.
  rewrite cliHandler_unfold, Hh. cbn [fst snd].
  assert (exists items e,
             emits (myip.cliTmplWalk (myip.PtrResponse (Some r))) items (inl e))
    as (items & e & H).
  { destruct (myip.RemoteAddrReverse r) as [rev|] eqn:Hrev;
      [| eexists _, _; apply (walk_noDNS r Hrev) ].
    destruct (myip.RemoteAddrWhois r) as [wh|] eqn:Hwh;
      [| eexists _, _; apply (walk_noWhois r rev Hrev Hwh) ].
    destruct (myip.Location r) as [loc|] eqn:Hloc;
      [| eexists _, _; apply (walk_noLocation r rev wh Hrev Hwh Hloc) ].
    destruct Hnil as [Hn | [Hn | Hn]]; discriminate Hn. }
  exists e. split.
  - rewrite (Execute_cliTmpl _ _ _ _ H). reflexivity.
  - exists items. rewrite (WriteText_exec_error s w req Hw _ _ _ H). reflexivity.
Qed.

Lemma cliHandler_absent_enrichment_witness :
  exists e,
    snd (template.Execute myip.cliTmpl (myip.PtrResponse (Some sample.noDNSResponse))
           (http.SetHeader "Content-Type" "text/plain" sample.w0)) = Some e
    /\ exists partial,
        http.body (myip.cliHandler (sample.app (Some sample.noDNSResponse, None))
                     sample.w0 sample.curlRequest)
        = partial ++ http.text (errors.Error e).
Proof.
  apply (cliHandler_absent_enrichment
           (sample.HandleMyIP (Some sample.noDNSResponse, None)) sample.HandleConfigJs
           (sample.server false "") sample.w0 sample.curlRequest sample.noDNSResponse
           (conj eq_refl eq_refl) eq_refl).
  left. reflexivity.
Defined.

(** The response written for curl when the reverse DNS lookup failed. *)
Example cliHandler_noDNS :
  let w' := myip.cliHandler (sample.app (Some sample.noDNSResponse, None))
              sample.w0 sample.curlRequest in
  http.status w' = Some 200
  /\ http.body w'
     = http.text ("IP: 192.0.2.5" +:+ gostrings.nl)
       ++ http.text ("template: test:2:26: executing " +:+ gostrings.quote +:+ "test"
                     +:+ gostrings.quote +:+ " at <.RemoteAddrReverse.Names>: "
                     +:+ "nil pointer evaluating *dns.Response.Names").
Proof. cbv zeta. split; vm_compute; reflexivity. Qed.

(** C8 fails when the template fails: [cliTmpl] has already written
    [IP: ] by then, so the status is the 200 of that first write, the
    [WriteHeader(500)] is superfluous, and the error text comes after the
    partial output instead of being the whole body. *)
Theorem WriteText_template_failure (s : myip.DefaultServer) (w : http.ResponseWriter)
    (req : http.Request) (data : myip.any) (e : error) :
  http.unwritten w ->
  snd (template.Execute myip.cliTmpl data
         (http.SetHeader "Content-Type" "text/plain" w)) = Some e ->
  let w' := myip.WriteText s w req myip.cliTmpl data None in
  http.status w' = Some 200
  /\ (exists partial,
        http.body w' = http.text "IP: " ++ partial ++ http.text (errors.Error e))
  /\ http.body w' <> http.text (errors.Error e).
Proof.
  intros Hw He w'. subst w'.
  destruct (walk_cases data) as (items & res & H).
  rewrite (Execute_cliTmpl _ _ _ _ H) in He. simpl in He.
  destruct res as [e'|[]]; [| discriminate He]. injection He as ->.
  rewrite (WriteText_exec_error s w req Hw _ _ _ H). cbn [http.body http.status].
  split; [reflexivity|]. split.
  - exists items. rewrite <- app_assoc. reflexivity.
  - intros Heq. apply (f_equal (@length http.item)) in Heq.
    rewrite !List.length_app in Heq. simpl in Heq. lia.
Qed.

Lemma WriteText_template_failure_witness :
  let e := errors.ExecError "test" "2:26" ".RemoteAddrReverse.Names"
             "nil pointer evaluating *dns.Response.Names" in
  let w' := myip.WriteText (sample.server false "") sample.w0 sample.curlRequest
              myip.cliTmpl (myip.PtrResponse (Some sample.noDNSResponse)) None in
  http.status w' = Some 200
  /\ (exists partial,
        http.body w' = http.text "IP: " ++ partial ++ http.text (errors.Error e))
  /\ http.body w' <> http.text (errors.Error e).
Proof.
  apply (WriteText_template_failure (sample.server false "") sample.w0
           sample.curlRequest (myip.PtrResponse (Some sample.noDNSResponse))
           (errors.ExecError "test" "2:26" ".RemoteAddrReverse.Names"
              "nil pointer evaluating *dns.Response.Names")
           (conj eq_refl eq_refl)).
  vm_compute. reflexivity.
Defined.

(** The two cases of C8 that hold: an error of the pipeline gives status
    500 and the error text as the whole body, and a template that runs to
    its end gives status 200 and its output. *)
Lemma WriteText_sound_cases (s : myip.DefaultServer) (w : http.ResponseWriter)
    (req : http.Request) (data : myip.any) :
  http.unwritten w ->
  (forall e,
      http.status (myip.WriteText s w req myip.cliTmpl data (Some e)) = Some 500
      /\ http.body (myip.WriteText s w req myip.cliTmpl data (Some e))
         = http.text (errors.Error e))
  /\ (forall items,
        emits (myip.cliTmplWalk data) items (inr tt) ->
        http.status (myip.WriteText s w req myip.cliTmpl data None) = Some 200
        /\ http.body (myip.WriteText s w req myip.cliTmpl data None) = items).
Proof.
  intros Hw. split.
  - intros e. rewrite (WriteText_pipeline_error s w req Hw). split; reflexivity.
  - intros items H. rewrite (WriteText_ok s w req Hw _ _ H). split; reflexivity.
Qed.

(** The JSON encoding leaves out the enrichment fields that are nil. *)
Lemma MarshalResponse_omits_nil (r : myip.Response) :
  (myip.RemoteAddrReverse r = None ->
   "RemoteAddrReverse" ∉ json.keys (myip.MarshalResponse r))
  /\ (myip.RemoteAddrWhois r = None ->
      "RemoteAddrWhois" ∉ json.keys (myip.MarshalResponse r))
  /\ (myip.Location r = None -> "Location" ∉ json.keys (myip.MarshalResponse r))
  /\ (myip.UserAgent r = None -> "UserAgent" ∉ json.keys (myip.MarshalResponse r)).
Proof.
  unfold myip.MarshalResponse, json.keys, myip.omitemptyString, myip.omitemptyMap,
    myip.omitemptyPtr.
  repeat split; intros ->;
    destruct (String.eqb (myip.RequestID r) "");
    destruct (String.eqb (myip.ActualRemoteAddr r) "");
    destruct (decide (myip.Insights r = ∅));
    destruct (myip.RemoteAddrReverse r), (myip.RemoteAddrWhois r),
      (myip.Location r), (myip.UserAgent r);
    simpl; rewrite ?list_elem_of_In; simpl; intuition discriminate.
Qed.

(** [isCli] on the two client identifiers of the specification. *)
Example isCli_examples :
  myip.isCli sample.curlRequest = true /\ myip.isCli sample.plainRequest = false.
Proof. split; reflexivity. Qed.

(** Without an error the three header fields are sent with the response. *)
Lemma WriteJSON_ok_headers (s : myip.DefaultServer) (w : http.ResponseWriter)
    (req : http.Request) (obj : myip.any) :
  http.unwritten w ->
  let h := http.sent (myip.WriteJSON s w req obj None) in
  h !! "Access-Control-Allow-Origin" = Some [scheme req +:+ conf.Host (myip.Config s)]
  /\ h !! "Content-Type" = Some ["application/json"]
  /\ h !! "Vary" = Some ["Origin"].
Proof.
  intros Hw h. subst h. rewrite (WriteJSON_ok s w req Hw). cbn [http.sent].
  split; [| split].
  - unfold jsonHeader, textproto.Set_.
    rewrite canonical_ContentType, canonical_ACAO, canonical_Vary.
    rewrite lookup_insert_ne by discriminate. apply lookup_insert_eq.
  - apply jsonHeader_ContentType.
  - unfold jsonHeader, textproto.Set_. rewrite canonical_Vary. apply lookup_insert_eq.
Qed.

(** C9 fails for the response to an error: [WriteJSON] calls
    [WriteHeader(500)] before it sets the three header fields, so the
    response is sent with the header map the writer had on entry, and a
    field that map does not hold is not sent, although the header map holds
    all three afterwards. *)
Theorem WriteJSON_error_headers (s : myip.DefaultServer) (w : http.ResponseWriter)
    (req : http.Request) (obj : myip.any) (e : error) :
  http.unwritten w ->
  let w' := myip.WriteJSON s w req obj (Some e) in
  http.status w' = Some 500
  /\ http.sent w' = http.header w
  /\ (forall key, http.header w !! key = None -> http.sent w' !! key = None)
  /\ http.header w' !! "Content-Type" = Some ["application/json"].
Proof.
  intros Hw w'. subst w'. rewrite (WriteJSON_error s w req Hw).
  cbn [http.status http.sent http.header].
  split; [reflexivity|]. split; [reflexivity|]. split.
  - intros key H. exact H.
  - apply jsonHeader_ContentType.
Qed.

Lemma WriteJSON_error_headers_witness :
  let w' := myip.WriteJSON (sample.server false "") sample.w0 sample.plainRequest
              (myip.PtrResponse None) (Some (errors.errorString "no address")) in
  http.status w' = Some 500
  /\ http.sent w' !! "Content-Type" = None
  /\ http.sent w' !! "Access-Control-Allow-Origin" = None
  /\ http.sent w' !! "Vary" = None.
Proof.
  cbv zeta.
  destruct (WriteJSON_error_headers (sample.server false "") sample.w0
              sample.plainRequest (myip.PtrResponse None)
              (errors.errorString "no address") (conj eq_refl eq_refl))
    as (Hs & _ & Hnone & _).
  split; [exact Hs|].
  split; [| split]; apply Hnone; reflexivity.
Defined.

Lemma WriteJSON_ok_headers_witness :
  let h := http.sent (myip.WriteJSON (sample.server false "") sample.w0
                        sample.plainRequest
                        (myip.PtrResponse (Some (sample.fullResponse sample.london)))
                        None) in
  h !! "Access-Control-Allow-Origin" = Some ["http://myip.example"]
  /\ h !! "Content-Type" = Some ["application/json"]
  /\ h !! "Vary" = Some ["Origin"].
Proof.
  apply (WriteJSON_ok_headers (sample.server false "") sample.w0 sample.plainRequest
           (myip.PtrResponse (Some (sample.fullResponse sample.london)))
           (conj eq_refl eq_refl)).
Defined.

Lemma WriteText_sound_cases_witness :
  (http.status (myip.WriteText (sample.server false "") sample.w0 sample.curlRequest
                  myip.cliTmpl (myip.PtrResponse None)
                  (Some (errors.errorString "no address"))) = Some 500
   /\ http.body (myip.WriteText (sample.server false "") sample.w0 sample.curlRequest
                   myip.cliTmpl (myip.PtrResponse None)
                   (Some (errors.errorString "no address")))
      = http.text "no address").
Proof.
  apply (proj1 (WriteText_sound_cases (sample.server false "") sample.w0
                  sample.curlRequest (myip.PtrResponse None) (conj eq_refl eq_refl))
           (errors.errorString "no address")).
Defined.

(** * Further properties of the code *)

(** ** More on strings and [net.SplitHostPort] *)

Lemma string_app_assoc (a b c : string) : (a +:+ b) +:+ c = a +:+ b +:+ c.
Proof.
  induction a as [|x a IH]; rewrite ?app_nil, ?app_cons; [reflexivity|].
  rewrite IH. reflexivity.
Qed.

Lemma substring_middle (a b c : string) :
  String.substring (String.length a) (String.length b) (a +:+ b +:+ c) = b.
Proof.
  induction a as [|x a IH]; rewrite ?app_nil, ?app_cons; simpl.
  - apply substring_prefix.
  - exact IH.
Qed.

Lemma substring_tail (a b : string) :
  String.substring (String.length a) (String.length b) (a +:+ b) = b.
Proof.
  induction a as [|x a IH]; rewrite ?app_nil, ?app_cons; simpl.
  - apply substring_all.
  - exact IH.
Qed.

Lemma sliceFrom_eq (hp a b : string) (j : nat) :
  hp = a +:+ b -> j = String.length a -> gostrings.sliceFrom hp j = b.
Proof.
  intros -> ->. unfold gostrings.sliceFrom. rewrite string_length_app.
  replace (String.length a + String.length b - String.length a)
    with (String.length b) by lia.
  apply substring_tail.
Qed.

Lemma slice_eq (hp a b c : string) (i j : nat) :
  hp = a +:+ b +:+ c -> i = String.length a ->
  j = String.length a + String.length b -> gostrings.slice hp i j = b.
Proof.
  intros -> -> ->. unfold gostrings.slice.
  replace (String.length a + String.length b - String.length a)
    with (String.length b) by lia.
  apply substring_middle.
Qed.

Lemma sliceTo_eq (hp a b : string) (j : nat) :
  hp = a +:+ b -> j = String.length a -> gostrings.sliceTo hp j = a.
Proof. intros -> ->. apply substring_prefix. Qed.

Lemma IndexByteString_first (a b : string) (c : ascii) :
  net.contains a c = false ->
  gostrings.IndexByteString (a +:+ String c b) c = Some (String.length a).
Proof.
  unfold net.contains. intros H. rewrite IndexByteString_app.
  destruct (gostrings.IndexByteString a c); [discriminate|].
  simpl. rewrite Ascii.eqb_refl, Nat.add_0_r. reflexivity.
Qed.

Lemma prefix_iff (p s : string) :
  String.prefix p s = true <-> exists rest, s = p +:+ rest.
Proof.
  revert s. induction p as [|a p IH]; intros s.
  - split; [intros _; exists s; reflexivity | intros _; destruct s; reflexivity].
  - destruct s as [|b s]; simpl.
    + split; [discriminate | intros [rest H]; rewrite app_cons in H; discriminate].
    + destruct (ascii_dec a b) as [->|Hne].
      * rewrite IH. split; intros [rest H]; exists rest.
        -- rewrite app_cons, H. reflexivity.
        -- rewrite app_cons in H. injection H as H. exact H.
      * split; [discriminate|]. intros [rest H]. rewrite app_cons in H.
        injection H as H1 H2. congruence.
Qed.

(** A host without brackets, put in brackets and followed by a colon and a
    port, is split into the host and the port; the host may hold colons. *)
Lemma SplitHostPort_bracketed (host port : string) :
  net.contains host "[" = false -> net.contains host "]" = false ->
  plain port = true ->
  net.SplitHostPort ("[" +:+ host +:+ "]:" +:+ port) = (host, port, None).
Proof.
  intros Hl Hr Hp. unfold plain in Hp.
  apply andb_prop in Hp as [Hp Hp3]. apply andb_prop in Hp as [Hp1 Hp2].
  apply negb_true_iff in Hp1, Hp2, Hp3.
  set (hp := "[" +:+ host +:+ "]:" +:+ port).
  set (n := String.length host).
  assert (Hlast : gostrings.LastIndexByteString hp ":" = Some (S (S n))).
  { replace hp with (("[" +:+ host +:+ "]") +:+ String ":" port)
      by (unfold hp; rewrite !string_app_assoc; reflexivity).
    rewrite (LastIndexByteString_sep _ port ":" Hp1).
    rewrite app_cons, app_nil. simpl. rewrite string_length_app. simpl.
    f_equal. unfold n. lia. }
  assert (Hidx : gostrings.IndexByteString hp "]" = Some (S n)).
  { replace hp with (("[" +:+ host) +:+ String "]" (":" +:+ port))
      by (unfold hp; rewrite !string_app_assoc; reflexivity).
    rewrite IndexByteString_first; [reflexivity|].
    rewrite contains_app, Hr. reflexivity. }
  assert (Hlen : String.length hp = n + 3 + String.length port).
  { unfold hp. rewrite !string_length_app. simpl. unfold n. lia. }
  unfold net.SplitHostPort. rewrite Hlast, Hidx, Hlen.
  rewrite bool_decide_eq_true_2 by reflexivity.
  rewrite !Nat.add_1_r.
  replace (Nat.eqb (S (S n)) (n + 3 + String.length port)) with false
    by (symmetry; apply Nat.eqb_neq; lia).
  rewrite Nat.eqb_refl.
  rewrite (sliceFrom_eq hp "[" (host +:+ "]:" +:+ port) 1 eq_refl eq_refl).
  rewrite (sliceFrom_eq hp ("[" +:+ host +:+ "]") (":" +:+ port) (S (S n))).
  2:{ unfold hp. rewrite !string_app_assoc. reflexivity. }
  2:{ rewrite app_cons, app_nil. simpl. rewrite string_length_app. simpl.
      unfold n. lia. }
  rewrite (sliceFrom_eq hp ("[" +:+ host +:+ "]:") port (S (S (S n)))).
  2:{ unfold hp. rewrite !string_app_assoc. reflexivity. }
  2:{ rewrite app_cons, app_nil. simpl. rewrite string_length_app. simpl.
      unfold n. lia. }
  rewrite (slice_eq hp "[" host ("]:" +:+ port) 1 (S n) eq_refl eq_refl eq_refl).
  rewrite !contains_app, Hl, Hp2, Hp3. reflexivity.
Qed.

(** An address that does not start with a bracket and has a colon before
    its last colon does not parse. *)
Lemma SplitHostPort_many_colons (h z : string) :
  gostrings.first (h +:+ ":" +:+ z) <> Some "["%char ->
  net.contains h ":" = true -> net.contains z ":" = false ->
  isHostPort (h +:+ ":" +:+ z) = false.
Proof.
  intros Hf Hh Hz. unfold isHostPort, net.SplitHostPort.
  change (":" +:+ z) with (String ":" z) in *.
  rewrite (LastIndexByteString_sep h z ":" Hz).
  rewrite bool_decide_eq_false_2 by exact Hf.
  rewrite (sliceTo_eq _ h (String ":" z) _ eq_refl eq_refl), Hh. reflexivity.
Qed.

(** ** More on [GetRemoteAddr] *)

Lemma GetRemoteAddr_observed (s : myip.DefaultServer) (req : http.Request) :
  overridden s req = false ->
  myip.GetRemoteAddr s req =
    let '(host, _, err) := net.SplitHostPort (observed s req) in
    match err with
    | Some _ => (observed s req, None)
    | None => (host, None)
    end.
Proof.
  intros Ho. unfold observed. destruct (forwarded s req) eqn:Hf.
  - apply GetRemoteAddr_header; assumption.
  - apply GetRemoteAddr_peer; assumption.
Qed.

(** When the debug override does not apply and the trusted header holds
    host:port, [GetRemoteAddr] returns the host: the port is stripped from
    the header value as it is from a peer address, and the peer address is
    not looked at. *)
Theorem GetRemoteAddr_forwarded_port (s : myip.DefaultServer) (req : http.Request)
    (host port : string) :
  overridden s req = false ->
  conf.IPHeader (myip.Config s) <> "" ->
  plain host = true -> plain port = true ->
  textproto.Get (http.Header_ req) (conf.IPHeader (myip.Config s))
    = host +:+ ":" +:+ port ->
  myip.GetRemoteAddr s req = (host, None).
Proof.
  intros Ho Hc Hh Hp Hg.
  assert (Hf : forwarded s req = true).
  { unfold forwarded. rewrite Hg, (eqb_empty_false _ Hc).
    destruct host; reflexivity. }
  rewrite (GetRemoteAddr_observed s req Ho). unfold observed. rewrite Hf, Hg.
  rewrite (SplitHostPort_join host port Hh Hp). reflexivity.
Qed.

Lemma GetRemoteAddr_forwarded_port_witness :
  myip.GetRemoteAddr (sample.server false "X-Real-IP") inputs.proxiedPortRequest
  = ("198.51.100.9", None).
Proof.
  apply (GetRemoteAddr_forwarded_port (sample.server false "X-Real-IP")
           inputs.proxiedPortRequest "198.51.100.9" "8443");
    [reflexivity | discriminate | reflexivity | reflexivity | reflexivity].
Defined.

(** When the debug override does not apply, an address of the form
    [[host]:port], from the trusted header or the peer, resolves to the
    host without the brackets; the host may hold colons (an IPv6
    address). *)
Theorem GetRemoteAddr_bracketed (s : myip.DefaultServer) (req : http.Request)
    (host port : string) :
  overridden s req = false ->
  net.contains host "[" = false -> net.contains host "]" = false ->
  plain port = true ->
  observed s req = "[" +:+ host +:+ "]:" +:+ port ->
  myip.GetRemoteAddr s req = (host, None).
Proof.
  intros Ho Hl Hr Hp Hobs. rewrite (GetRemoteAddr_observed s req Ho), Hobs.
  rewrite (SplitHostPort_bracketed host port Hl Hr Hp). reflexivity.
Qed.

Lemma GetRemoteAddr_bracketed_witness :
  myip.GetRemoteAddr (sample.server false "") inputs.bracketedRequest
  = ("2001:db8::1", None).
Proof.
  apply (GetRemoteAddr_bracketed (sample.server false "") inputs.bracketedRequest
           "2001:db8::1" "54321"); reflexivity.
Defined.

(** When the debug override does not apply, an address that does not start
    with a bracket and holds more than one colon (a bare IPv6 address) is
    returned whole, with a nil error: nothing after its last colon is taken
    for a port. *)
Theorem GetRemoteAddr_many_colons (s : myip.DefaultServer) (req : http.Request)
    (h z : string) :
  overridden s req = false ->
  observed s req = h +:+ ":" +:+ z ->
  gostrings.first (observed s req) <> Some "["%char ->
  net.contains h ":" = true -> net.contains z ":" = false ->
  myip.GetRemoteAddr s req = (observed s req, None).
Proof.
  intros Ho Hobs Hf Hh Hz. rewrite (GetRemoteAddr_observed s req Ho).
  pose proof (SplitHostPort_many_colons h z) as H.
  rewrite <- Hobs in H. specialize (H Hf Hh Hz). unfold isHostPort in H.
  destruct (net.SplitHostPort (observed s req)) as [[a b] [e|]];
    [reflexivity | discriminate].
Qed.

Lemma GetRemoteAddr_many_colons_witness :
  myip.GetRemoteAddr (sample.server false "") inputs.bareIPv6Request
  = ("2001:db8::1", None).
Proof.
  apply (GetRemoteAddr_many_colons (sample.server false "") inputs.bareIPv6Request
           "2001:db8:" "1");
    [reflexivity | reflexivity | discriminate | reflexivity | reflexivity].
Defined.

(** A missing or empty [host] parameter leaves the debug flag without
    effect, and a missing or empty value of the trusted header leaves the
    configured header name without effect: the result is the one of the
    server with debug off, respectively with no header configured. *)
Theorem GetRemoteAddr_fallback (s : myip.DefaultServer) (req : http.Request) :
  (url.Get (url.Query (http.URL req)) "host" = "" ->
   myip.GetRemoteAddr s req = myip.GetRemoteAddr (withDebug false s) req)
  /\ (textproto.Get (http.Header_ req) (conf.IPHeader (myip.Config s)) = "" ->
      myip.GetRemoteAddr s req = myip.GetRemoteAddr (withIPHeader "" s) req).
Proof.
  split.
  - intros H. unfold myip.GetRemoteAddr, withDebug. simpl. rewrite H. reflexivity.
  - intros H. unfold myip.GetRemoteAddr, withIPHeader. simpl. rewrite H. simpl.
    destruct (negb (String.eqb (conf.IPHeader (myip.Config s)) "")); reflexivity.
Qed.

Lemma GetRemoteAddr_fallback_witness :
  myip.GetRemoteAddr (sample.server true "X-Real-IP") sample.plainRequest
  = myip.GetRemoteAddr (sample.server false "X-Real-IP") sample.plainRequest
  /\ myip.GetRemoteAddr (sample.server true "X-Real-IP") sample.plainRequest
     = myip.GetRemoteAddr (sample.server true "") sample.plainRequest.
Proof.
  split.
  - apply (proj1 (GetRemoteAddr_fallback (sample.server true "X-Real-IP")
                    sample.plainRequest)).
    reflexivity.
  - apply (proj2 (GetRemoteAddr_fallback (sample.server true "X-Real-IP")
                    sample.plainRequest)).
    reflexivity.
Defined.

(** [GetRemoteAddr] reads three things of the request: the first [host]
    query value, the first value of the configured header and the peer
    address.  Requests that agree on them resolve alike, whatever their
    other headers, path, method or TLS state. *)
Theorem GetRemoteAddr_reads (s : myip.DefaultServer) (req req' : http.Request) :
  url.Get (url.Query (http.URL req)) "host" = url.Get (url.Query (http.URL req')) "host" ->
  textproto.Get (http.Header_ req) (conf.IPHeader (myip.Config s))
  = textproto.Get (http.Header_ req') (conf.IPHeader (myip.Config s)) ->
  http.RemoteAddr req = http.RemoteAddr req' ->
  myip.GetRemoteAddr s req = myip.GetRemoteAddr s req'.
Proof.
  intros Hq Hh Hr. unfold myip.GetRemoteAddr. rewrite Hq, Hh, Hr. reflexivity.
Qed.

Lemma GetRemoteAddr_reads_witness :
  myip.GetRemoteAddr (sample.server true "X-Real-IP") inputs.decoratedRequest
  = myip.GetRemoteAddr (sample.server true "X-Real-IP") sample.plainRequest.
Proof.
  apply (GetRemoteAddr_reads (sample.server true "X-Real-IP")
           inputs.decoratedRequest sample.plainRequest); reflexivity.
Defined.

(** *** The configured header name is canonicalized *)

Lemma canonicalize_cons up c s :
  textproto.canonicalize up (String c s)
  = String (canonByte up c)
      (textproto.canonicalize (Ascii.eqb (canonByte up c) "-") s).
Proof. reflexivity. Qed.

Lemma canonByte_idem up c : canonByte up (canonByte up c) = canonByte up c.
Proof. destruct up; destruct c as [[] [] [] [] [] [] [] []]; vm_compute; reflexivity. Qed.

Lemma canonByte_valid up c :
  textproto.validHeaderFieldByte (canonByte up c) = textproto.validHeaderFieldByte c.
Proof. destruct up; destruct c as [[] [] [] [] [] [] [] []]; vm_compute; reflexivity. Qed.

Lemma canonicalize_idem up s :
  textproto.canonicalize up (textproto.canonicalize up s) = textproto.canonicalize up s.
Proof.
  revert up. induction s as [|c s IH]; intros up; [reflexivity|].
  rewrite !canonicalize_cons, canonByte_idem, IH. reflexivity.
Qed.

Lemma allValid_canonicalize up s :
  textproto.allValid (textproto.canonicalize up s) = textproto.allValid s.
Proof.
  revert up. induction s as [|c s IH]; intros up; [reflexivity|].
  rewrite canonicalize_cons. simpl. rewrite canonByte_valid, IH. reflexivity.
Qed.

Lemma Canonical_idem (key : string) :
  textproto.CanonicalMIMEHeaderKey (textproto.CanonicalMIMEHeaderKey key)
  = textproto.CanonicalMIMEHeaderKey key.
Proof.
  unfold textproto.CanonicalMIMEHeaderKey.
  destruct (textproto.allValid key) eqn:E.
  - rewrite allValid_canonicalize, E. apply canonicalize_idem.
  - rewrite E. reflexivity.
Qed.

Lemma Canonical_empty (key : string) :
  String.eqb (textproto.CanonicalMIMEHeaderKey key) "" = String.eqb key "".
Proof.
  unfold textproto.CanonicalMIMEHeaderKey.
  destruct key as [|c key]; [reflexivity|].
  destruct (textproto.allValid (String c key)); [| reflexivity].
  rewrite canonicalize_cons. reflexivity.
Qed.

(** The configured header name counts through its canonical form only:
    replacing [IPHeader] by its canonical MIME header key (so writing
    [x-real-ip] or [X-REAL-IP] for [X-Real-Ip]) changes the result of
    [GetRemoteAddr] for no request. *)
Theorem GetRemoteAddr_IPHeader_canonical (s : myip.DefaultServer) (req : http.Request) :
  myip.GetRemoteAddr
    (withIPHeader (textproto.CanonicalMIMEHeaderKey (conf.IPHeader (myip.Config s))) s)
    req
  = myip.GetRemoteAddr s req.
Proof.
  unfold myip.GetRemoteAddr, withIPHeader, textproto.Get. simpl.
  rewrite Canonical_empty, Canonical_idem. reflexivity.
Qed.

(** ** More on the content negotiation and the routes *)

(** A request is taken for a script client exactly when the first value of
    its User-Agent header starts with [curl/] or with [Wget/], in this
    spelling. *)
Theorem isCli_iff (req : http.Request) :
  myip.isCli req = true <->
  exists rest,
    textproto.Get (http.Header_ req) "User-Agent" = "curl/" +:+ rest
    \/ textproto.Get (http.Header_ req) "User-Agent" = "Wget/" +:+ rest.
Proof.
  unfold myip.isCli, gostrings.HasPrefix.
  rewrite orb_true_iff, !prefix_iff. split.
  - intros [[rest H] | [rest H]]; exists rest; [left | right]; exact H.
  - intros [rest [H | H]]; [left | right]; exists rest; exact H.
Qed.



(** ** More on the JSON path *)

(** What [addInsights] returns never reaches the response: [jsonHandler]
    calls it only when [HandleMyIP] returned an error, and [WriteJSON] then
    replaces the object by the [ErrResponse].  So [WriteJSON] with an error
    does not depend on the object, and the handler and the router answer
    alike whatever [addInsights] is. *)
Theorem jsonHandler_ignores_addInsights
    (HandleMyIP : myip.DefaultServer -> http.Request -> option myip.Response * option error)
    (HandleConfigJs : myip.DefaultServer -> http.HandlerFunc)
    (addInsights addInsights' : http.Request -> option myip.Response -> option myip.Response)
    (fs : http.HandlerFunc) (s : myip.DefaultServer) (config : conf.Config)
    (w : http.ResponseWriter) (req : http.Request) :
  let app := myip.server HandleMyIP HandleConfigJs s in
  (forall obj obj' e,
      myip.WriteJSON s w req obj (Some e) = myip.WriteJSON s w req obj' (Some e))
  /\ myip.jsonHandler addInsights app w req = myip.jsonHandler addInsights' app w req
  /\ mux.ServeHTTP (myip.Register addInsights fs app config) w req
     = mux.ServeHTTP (myip.Register addInsights' fs app config) w req.
Proof.
  intros app.
  assert (Hj : myip.jsonHandler addInsights app w req
               = myip.jsonHandler addInsights' app w req).
  { unfold myip.jsonHandler, app. simpl.
    destruct (HandleMyIP s req) as [response [e|]]; reflexivity. }
  split; [reflexivity|]. split; [exact Hj|].
  unfold app in *. rewrite !ServeHTTP_Register, Hj. reflexivity.
Qed.

(** [WriteJSON] reads one thing of the request, whether it came over TLS:
    two requests that agree on it get the same response, so no header of
    the request (a forwarded protocol or origin) changes the origin that is
    allowed. *)
Theorem WriteJSON_reads_TLS (s : myip.DefaultServer) (w : http.ResponseWriter)
    (req req' : http.Request) (obj : myip.any) (err : option error) :
  http.TLS req = http.TLS req' ->
  myip.WriteJSON s w req obj err = myip.WriteJSON s w req' obj err.
Proof. intros H. unfold myip.WriteJSON. rewrite H. reflexivity. Qed.

Lemma WriteJSON_reads_TLS_witness :
  myip.WriteJSON (sample.server false "") sample.w0 inputs.decoratedRequest
    (myip.PtrResponse (Some (sample.fullResponse sample.london))) None
  = myip.WriteJSON (sample.server false "") sample.w0 sample.plainRequest
      (myip.PtrResponse (Some (sample.fullResponse sample.london))) None.
Proof.
  apply (WriteJSON_reads_TLS (sample.server false "") sample.w0
           inputs.decoratedRequest sample.plainRequest).
  reflexivity.
Defined.

(** *** The members of the encoding of a [Response] *)

Lemma keys_app (a b : list (string * json.Value)) :
  map fst (a ++ b) = map fst a ++ map fst b.
Proof. apply List.map_app. Qed.

Lemma keys_omitemptyString (name s : string) :
  map fst (myip.omitemptyString name s) = optionalKey name (negb (String.eqb s "")).
Proof. unfold myip.omitemptyString. destruct (String.eqb s ""); reflexivity. Qed.

Lemma keys_omitemptyPtr {A} (name : string) (p : option A) (enc : A -> json.payload) :
  map fst (myip.omitemptyPtr name p enc) = optionalKey name (isSome p).
Proof. destruct p; reflexivity. Qed.

Lemma keys_omitemptyMap (name : string) (m : gmap string string) :
  map fst (myip.omitemptyMap name m) = optionalKey name (negb (bool_decide (m = ∅))).
Proof.
  unfold myip.omitemptyMap. destruct (decide (m = ∅)) as [E|E].
  - rewrite bool_decide_eq_true_2 by exact E. reflexivity.
  - rewrite bool_decide_eq_false_2 by exact E. reflexivity.
Qed.

Lemma keys_MarshalResponse (r : myip.Response) :
  json.keys (myip.MarshalResponse r) = responseKeys r.
Proof.
  unfold myip.MarshalResponse, json.keys, responseKeys.
  rewrite !keys_app, !keys_omitemptyString, !keys_omitemptyPtr, keys_omitemptyMap.
  reflexivity.
Qed.

Lemma optionalKey_sublist (name : string) (present : bool) :
  optionalKey name present `sublist_of` [name].
Proof.
  unfold optionalKey. destruct present; [reflexivity | apply sublist_nil_l].
Qed.

Lemma responseKeys_sublist (r : myip.Response) : responseKeys r `sublist_of` allKeys.
Proof.
  unfold responseKeys, allKeys.
  repeat first
    [ apply (sublist_app (optionalKey _ _) [_]); [apply optionalKey_sublist|]
    | apply (sublist_app [_; _] [_; _]); [reflexivity|]
    | apply (sublist_app [_; _; _; _] [_; _; _; _]); [reflexivity|] ].
  apply optionalKey_sublist.
Qed.

(** The members of the encoding of a [Response] come in the order of the
    struct's fields, and no name occurs twice. *)
Theorem MarshalResponse_members (r : myip.Response) :
  json.keys (myip.MarshalResponse r) `sublist_of` allKeys
  /\ NoDup (json.keys (myip.MarshalResponse r)).
Proof.
  rewrite keys_MarshalResponse.
  split; [apply responseKeys_sublist|].
  apply (sublist_NoDup _ allKeys); [| apply responseKeys_sublist].
  unfold allKeys.
  repeat (apply NoDup_cons_2;
          [rewrite ?elem_of_cons, elem_of_nil; intuition discriminate|]).
  apply NoDup_nil_2.
Qed.

(** Every field can be read back from the encoding of a [Response] by its
    name: the six fields without [omitempty] always, a string field with
    [omitempty] unless it is empty, a pointer field unless it is nil, and
    the insights unless the map is empty; a field left out has no member. *)
Theorem MarshalResponse_lookup (r : myip.Response) :
  let doc := myip.MarshalResponse r in
  getMember "RemoteAddr" doc = Some (json.Str (myip.RemoteAddr r))
  /\ getMember "RemoteAddrFamily" doc = Some (json.Str (myip.RemoteAddrFamily r))
  /\ getMember "Method" doc = Some (json.Str (myip.Method r))
  /\ getMember "URL" doc = Some (json.Str (myip.URL r))
  /\ getMember "Proto" doc = Some (json.Str (myip.Proto r))
  /\ getMember "Header" doc = Some (json.Payload (json.Header (myip.Header r)))
  /\ getMember "RequestID" doc
     = (if String.eqb (myip.RequestID r) "" then None
        else Some (json.Str (myip.RequestID r)))
  /\ getMember "ActualRemoteAddr" doc
     = (if String.eqb (myip.ActualRemoteAddr r) "" then None
        else Some (json.Str (myip.ActualRemoteAddr r)))
  /\ getMember "RemoteAddrReverse" doc
     = option_map (fun p => json.Payload (json.DNS p)) (myip.RemoteAddrReverse r)
  /\ getMember "RemoteAddrWhois" doc
     = option_map (fun p => json.Payload (json.Whois p)) (myip.RemoteAddrWhois r)
  /\ getMember "Location" doc
     = option_map (fun p => json.Payload (json.Location p)) (myip.Location r)
  /\ getMember "UserAgent" doc
     = option_map (fun p => json.Payload (json.UserAgent p)) (myip.UserAgent r)
  /\ getMember "Insights" doc
     = (if decide (myip.Insights r = ∅) then None
        else Some (json.Payload (json.StringMap (myip.Insights r)))).
Proof.
  cbv zeta.
  unfold getMember, myip.MarshalResponse, myip.omitemptyString, myip.omitemptyMap,
    myip.omitemptyPtr.
  destruct (String.eqb (myip.RequestID r) "");
    destruct (String.eqb (myip.ActualRemoteAddr r) "");
    destruct (myip.RemoteAddrReverse r), (myip.RemoteAddrWhois r),
      (myip.Location r), (myip.UserAgent r);
    destruct (decide (myip.Insights r = ∅));
    repeat split; reflexivity.
Qed.

(** ** More on the plain-text path *)

(** The plain-text output shows five fields of the response: the request
    id, the address, the reverse DNS result, the WHOIS result and the
    location.  Responses that agree on them render alike, errors included:
    the address family, the observed address, the request data, the user
    agent and the insights are never shown. *)
Theorem cliTmpl_reads (r1 r2 : myip.Response) (w : http.ResponseWriter) :
  myip.RequestID r1 = myip.RequestID r2 ->
  myip.RemoteAddr r1 = myip.RemoteAddr r2 ->
  myip.RemoteAddrReverse r1 = myip.RemoteAddrReverse r2 ->
  myip.RemoteAddrWhois r1 = myip.RemoteAddrWhois r2 ->
  myip.Location r1 = myip.Location r2 ->
  template.Execute myip.cliTmpl (myip.PtrResponse (Some r1)) w
  = template.Execute myip.cliTmpl (myip.PtrResponse (Some r2)) w.
Proof.
  destruct r1, r2. simpl. intros -> -> -> -> ->. reflexivity.
Qed.

Lemma cliTmpl_reads_witness :
  template.Execute myip.cliTmpl (myip.PtrResponse (Some inputs.otherMetadata)) sample.w0
  = template.Execute myip.cliTmpl
      (myip.PtrResponse (Some (sample.fullResponse sample.london))) sample.w0.
Proof.
  apply (cliTmpl_reads inputs.otherMetadata (sample.fullResponse sample.london)
           sample.w0); reflexivity.
Defined.

(** When the template fails on a nil pointer, the error is the one of the
    first nil pointer in the order of the template (reverse DNS, then WHOIS,
    then location), and the body is what the nodes before it printed,
    followed by the text of that error. *)
Theorem WriteText_first_nil (s : myip.DefaultServer) (w : http.ResponseWriter)
    (req : http.Request) (r : myip.Response) :
  http.unwritten w ->
  let out :=
    http.body (myip.WriteText s w req myip.cliTmpl (myip.PtrResponse (Some r)) None) in
  let start :=
    http.text "IP: " ++ http.text (myip.RemoteAddr r) ++ http.text gostrings.nl in
  (myip.RemoteAddrReverse r = None ->
   out = start
         ++ http.text (errors.Error
                         (errors.ExecError "test" "2:26" ".RemoteAddrReverse.Names"
                            "nil pointer evaluating *dns.Response.Names")))
  /\ (forall rev,
        myip.RemoteAddrReverse r = Some rev -> myip.RemoteAddrWhois r = None ->
        out = start ++ dnsLines (dns.Names rev)
              ++ http.text (gostrings.nl +:+ "WHOIS:" +:+ gostrings.nl)
              ++ http.text (errors.Error
                              (errors.ExecError "test" "5:18" ".RemoteAddrWhois.Body"
                                 "nil pointer evaluating *whois.Response.Body")))
  /\ (forall rev wh,
        myip.RemoteAddrReverse r = Some rev -> myip.RemoteAddrWhois r = Some wh ->
        myip.Location r = None ->
        out = start ++ dnsLines (dns.Names rev)
              ++ http.text (gostrings.nl +:+ "WHOIS:" +:+ gostrings.nl)
              ++ http.text (whois.Body wh)
              ++ http.text (gostrings.nl +:+ gostrings.nl +:+ "Location: ")
              ++ http.text (errors.Error
                              (errors.ExecError "test" "7:21" ".Location.City"
                                 "nil pointer evaluating *location.Response.City"))).
Proof.
  intros Hw out start. subst out start. split; [| split].
  - intros Hrev.
    rewrite (WriteText_exec_error s w req Hw _ _ _ (walk_noDNS r Hrev)).
    cbn [http.body]. rewrite <- !app_assoc. reflexivity.
  - intros rev Hrev Hwh.
    rewrite (WriteText_exec_error s w req Hw _ _ _ (walk_noWhois r rev Hrev Hwh)).
    cbn [http.body]. rewrite <- !app_assoc. reflexivity.
  - intros rev wh Hrev Hwh Hloc.
    rewrite (WriteText_exec_error s w req Hw _ _ _
               (walk_noLocation r rev wh Hrev Hwh Hloc)).
    cbn [http.body]. rewrite <- !app_assoc. reflexivity.
Qed.

Lemma WriteText_first_nil_witness :
  http.body (myip.WriteText (sample.server false "") sample.w0 sample.curlRequest
               myip.cliTmpl (myip.PtrResponse (Some sample.noDNSResponse)) None)
  = (http.text "IP: " ++ http.text "192.0.2.5" ++ http.text gostrings.nl)
    ++ http.text (errors.Error
                    (errors.ExecError "test" "2:26" ".RemoteAddrReverse.Names"
                       "nil pointer evaluating *dns.Response.Names")).
Proof.
  apply (proj1 (WriteText_first_nil (sample.server false "") sample.w0
                  sample.curlRequest sample.noDNSResponse (conj eq_refl eq_refl))).
  reflexivity.
Defined.

(** When [HandleMyIP] returns a nil response with a nil error, the JSON
    handler answers 200 with the document [null], and the plain-text
    handler answers 200 with [IP: ] followed by the template's error for
    the nil pointer. *)
Theorem handlers_nil_response
    (HandleMyIP : myip.DefaultServer -> http.Request -> option myip.Response * option error)
    (HandleConfigJs : myip.DefaultServer -> http.HandlerFunc)
    (addInsights : http.Request -> option myip.Response -> option myip.Response)
    (s : myip.DefaultServer) (w : http.ResponseWriter) (req : http.Request) :
  http.unwritten w ->
  HandleMyIP s req = (None, None) ->
  let app := myip.server HandleMyIP HandleConfigJs s in
  (http.status (myip.jsonHandler addInsights app w req) = Some 200
   /\ http.body (myip.jsonHandler addInsights app w req)
      = http.JSON json.Null :: http.text gostrings.nl)
  /\ (http.status (myip.cliHandler app w req) = Some 200
      /\ http.body (myip.cliHandler app w req)
         = http.text "IP: "
           ++ http.text (errors.Error
                           (errors.ExecError "test" "1:6" ".RemoteAddr"
                              "nil pointer evaluating *myip.Response.RemoteAddr"))).
Proof.
  intros Hw Hh app. subst app. split.
  - rewrite (jsonHandler_unfold HandleMyIP HandleConfigJs addInsights s w req Hw), Hh.
    split; reflexivity.
  - rewrite cliHandler_unfold, Hh. cbn [fst snd].
    rewrite (WriteText_exec_error s w req Hw _ _ _ walk_nil). split; reflexivity.
Qed.

Lemma handlers_nil_response_witness :
  http.body (myip.jsonHandler sample.addInsights (sample.app (None, None)) sample.w0
               sample.plainRequest)
  = http.JSON json.Null :: http.text gostrings.nl.
Proof.
  apply (proj1 (handlers_nil_response (sample.HandleMyIP (None, None))
                  sample.HandleConfigJs sample.addInsights (sample.server false "")
                  sample.w0 sample.plainRequest (conj eq_refl eq_refl) eq_refl)).
Defined.
